(** * SQL Report Validator: the validation rules of [streamlit_app.py]

    A shallow embedding of the script's explanation catalogue, its
    validation checks, its context builder and its question handler,
    followed by the properties the specification states about them.

    The script is a sequence of pandas one-liners over a data frame.  The
    frame is modelled as the script sees it after [pd.read_csv]: a header of
    named, typed columns and a list of rows of cells.  The arithmetic of the
    column library (element type of numeric columns, its sum, product and
    comparisons) is an interface, [Numeric]; Python's own [int / int] and
    [round(x, 2)] on the row counts are modelled bit-exactly on binary64. *)

From Stdlib Require Import ZArith Lia String Ascii List QArith Qcanon.
From Stdlib Require Import Uint63 PrimFloat FloatOps.
From stdpp Require Import base decidable option list numbers strings gmap pretty.

Local Open Scope Z_scope.

(** ** Exceptions of the script *)

Inductive exception :=
  | KeyError (key : string)
  | NameError (name : string)
  | ZeroDivisionError.

(** [KeyError] is the subclass of [LookupError] a failed dict or column
    lookup raises; the other two are not [LookupError]s. *)
Definition is_LookupError (e : exception) : bool :=
  match e with KeyError _ => true | _ => false end.

Definition result (A : Type) : Type := exception + A.

Definition raise {A} (e : exception) : result A := inl e.

Definition bind {A B} (m : result A) (k : A → result B) : result B :=
  match m with inl e => inl e | inr a => k a end.

Notation "'let*' x := m 'in' k" := (bind m (fun x => k))
  (at level 10, x pattern, m at level 100, k at level 200).

(** ** Python floats (binary64) as far as the script uses them

    The only floats the script itself computes are
    [total_rows / unique_keys] (true division of two Python ints, correctly
    rounded to binary64), [round(_, 2)] of it, and the literals [1.05] and
    [2] it is compared with.  A non-negative finite double is the pair
    [(mant, expo)] of value [mant * 2^expo]. *)
Module Py.

Record float := mkfloat { mant : Z; expo : Z }.

(** [n / d] rounded to the nearest integer, ties to even ([0 <= n], [0 < d]). *)
Definition round_half_even (n d : Z) : Z :=
  let q := n / d in
  let r := n mod d in
  if 2 * r <? d then q
  else if d <? 2 * r then q + 1
  else if Z.even q then q else q + 1.

(** The binary exponent of [n / d]: the [k] with [2^k <= n / d < 2^(k+1)]. *)
Definition binexp (n d : Z) : Z :=
  let k := Z.log2 n - Z.log2 d in
  let fits := if 0 <=? k then d * 2 ^ k <=? n else d <=? n * 2 ^ (- k) in
  if fits then k else k - 1.

(** The double nearest to the rational [n / d] (53 significant bits, ties to
    even); overflow and subnormals are out of reach of a quotient of row
    counts and are not modelled. *)
Definition of_ratio (n d : Z) : float :=
  if n =? 0 then mkfloat 0 0
  else
    let e := binexp n d - 52 in
    let m := if 0 <=? e then round_half_even n (d * 2 ^ e)
             else round_half_even (n * 2 ^ (- e)) d in
    mkfloat m e.

(** [a / b] on non-negative Python ints: the correctly rounded quotient, or
    [ZeroDivisionError]. *)
Definition truediv (a b : Z) : result float :=
  if b =? 0 then raise ZeroDivisionError else inr (of_ratio a b).

(** The integer nearest to [100 * x], ties to even, computed on the exact
    binary value of [x]: the digits [float.__round__] asks the decimal
    conversion for. *)
Definition hundredths (x : float) : Z :=
  if 0 <=? expo x then 100 * mant x * 2 ^ expo x
  else round_half_even (100 * mant x) (2 ^ (- expo x)).

(** [round(x, 2)]: the decimal with two digits nearest to [x], converted
    back to the nearest double. *)
Definition round2 (x : float) : float := of_ratio (hundredths x) 100.

(** [x <= y] on doubles, by cross-scaling to a common exponent. *)
Definition leb (x y : float) : bool :=
  let e := Z.min (expo x) (expo y) in
  mant x * 2 ^ (expo x - e) <=? mant y * 2 ^ (expo y - e).

(** The literals [1.05] and [2] of the script. *)
Definition lit_1_05 : float := of_ratio 105 100.
Definition lit_2 : float := of_ratio 2 1.

(** The exact value of a double, as a rational. *)
Definition to_Q (x : float) : Q :=
  if 0 <=? expo x then inject_Z (mant x * 2 ^ expo x)
  else Qmake (mant x) (Z.to_pos (2 ^ (- expo x))).

(** The same value as a primitive float of the kernel, and the kernel's
    own binary64 division of two integers: the model is run against them
    below. *)
Definition to_prim (x : float) : PrimFloat.float :=
  Z.ldexp (PrimFloat.of_uint63 (Uint63.of_Z (mant x))) (expo x).

Definition prim_div (a b : Z) : PrimFloat.float :=
  PrimFloat.div (PrimFloat.of_uint63 (Uint63.of_Z a))
                (PrimFloat.of_uint63 (Uint63.of_Z b)).

End Py.

(** ** Explanation catalogue *)

Definition explanation : Type := string * string * string.

Definition messages : gmap string (gmap string explanation) :=
  {[ "duplicates" :=
       {[ "PASS" :=
            ("No duplicate rows detected.",
             "Duplicate rows usually occur due to incorrect joins.",
             "No action needed.");
          "WARNING" :=
            ("Duplicate rows found in the report.",
             "Often caused by joins that multiply rows.",
             "Review joins and aggregation grain.") ]};
     "pk_duplicates" :=
       {[ "PASS" :=
            ("Primary key is unique.",
             "Uniqueness indicates correct data grain.",
             "No action needed.");
          "WARNING" :=
            ("Primary key contains duplicate values.",
             "Likely one-to-many joins without pre-aggregation.",
             "Check join keys and table grain.") ]};
     "aggregation" :=
       {[ "PASS" :=
            ("Reported revenue matches calculated revenue.",
             "Aggregation logic appears correct.",
             "No action needed.");
          "FAIL" :=
            ("Reported revenue does not match calculated revenue.",
             "Usually caused by join duplication or wrong formulas.",
             "Validate joins and aggregation logic.") ]};
     "join_risk" :=
       {[ "LOW" :=
            ("Low risk of join inflation.",
             "Row count aligns with primary key uniqueness.",
             "No action needed.");
          "MEDIUM" :=
            ("Moderate risk of join inflation.",
             "Some duplication exists at the key level.",
             "Review joins to many-side tables.");
          "HIGH" :=
            ("High risk of join inflation.",
             "Primary keys repeat many times, inflating totals.",
             "Pre-aggregate before joins or fix join conditions.") ]} ]}.

(** [d[k]] on a dict: the value, or [KeyError(k)]. *)
Definition dict_getitem {V} (d : gmap string V) (k : string) : result V :=
  match d !! k with Some v => inr v | None => raise (KeyError k) end.

(** [messages[check][severity]]. *)
Definition explain (check severity : string) : result explanation :=
  let* inner := dict_getitem messages check in
  dict_getitem inner severity.

(** The (check, severity) pairs of the specification's table. *)
Definition enumerated : list (string * string) :=
  [ ("duplicates", "PASS"); ("duplicates", "WARNING");
    ("pk_duplicates", "PASS"); ("pk_duplicates", "WARNING");
    ("aggregation", "PASS"); ("aggregation", "FAIL");
    ("join_risk", "LOW"); ("join_risk", "MEDIUM"); ("join_risk", "HIGH") ].

(** ** The column library's arithmetic

    What pandas and numpy compute on the elements of a numeric column is
    library code: the element type [num] (an int64 or a non-NaN float64),
    the arithmetic of sums and products, the comparisons, the parser behind
    [pd.to_numeric] and the value of the literal [0.01].  The checks are
    written once against this interface.  Two elements are equal when the
    library's hash tables ([duplicated], [unique]) take them for the same
    value. *)
Class Numeric (num : Type) := {
  num_eq_dec :: EqDecision num;
  num_zero : num;
  num_add : num → num → num;
  num_sub : num → num → num;
  num_mul : num → num → num;
  num_abs : num → num;
  num_leb : num → num → bool;
  num_ltb : num → num → bool;
  num_of_bool : bool → num;
  num_of_string : string → option num;
  num_lit_0_01 : num
}.

(** Column dtypes as [select_dtypes(include="number")] tells them apart:
    int64 and float64 are [number]; bool and object (text) are not. *)
Inductive dtype := number | boolean | object.

Global Instance dtype_eq_dec : EqDecision dtype.
Proof. solve_decision. Defined.

Section Engine.
Context {num : Type} `{!Numeric num}.

(** A cell of the frame: a number, a boolean, a text, or missing (NaN). *)
Inductive cell :=
  | Num (x : num)
  | Bool (b : bool)
  | Str (s : string)
  | NA.

#[global] Instance cell_eq_dec : EqDecision cell.
Proof. solve_decision. Defined.

(** The frame [pd.read_csv] returns: the header (column names, unique, each
    with its inferred dtype) and the rows. *)
Record DataFrame := mkDataFrame {
  header : list (string * dtype);
  rows : list (list cell)
}.

(** [df.columns] *)
Definition columns (df : DataFrame) : list string := (header df).*1.

(** [df.shape] *)
Definition shape (df : DataFrame) : nat * nat :=
  (length (rows df), length (header df)).

(** The cells of the column at position [j], top to bottom. *)
Definition column_values (df : DataFrame) (j : nat) : list cell :=
  map (λ r, default NA (r !! j)) (rows df).

(** [df[c]] for a column name [c]: the column of that name, or
    [KeyError(c)]. *)
Definition getitem (df : DataFrame) (c : string) : result (list cell) :=
  match list_find (λ x, x = c) (columns df) with
  | Some (j, _) => inr (column_values df j)
  | None => raise (KeyError c)
  end.

(** *** duplicated, sum, unique, nunique *)

Section Series.
Context {A : Type} `{!EqDecision A}.

(** [duplicated()] with the default [keep="first"]: an element is flagged
    when an equal one came before it; [seen] holds the elements passed. *)
Fixpoint duplicated_from (seen l : list A) : list bool :=
  match l with
  | [] => []
  | x :: l' => bool_decide (x ∈ seen) :: duplicated_from (x :: seen) l'
  end.

Definition duplicated (l : list A) : list bool := duplicated_from [] l.

(** [unique()]: the distinct elements in order of first appearance. *)
Fixpoint unique_from (seen l : list A) : list A :=
  match l with
  | [] => []
  | x :: l' =>
      if decide (x ∈ seen) then unique_from seen l'
      else x :: unique_from (x :: seen) l'
  end.

Definition unique (l : list A) : list A := unique_from [] l.

End Series.

(** [.sum()] of a boolean series: the number of [True]. *)
Definition sum_bool (l : list bool) : nat := length (filter (λ b, b = true) l).

(** [isnull()] on a cell. *)
Definition isnull (c : cell) : bool :=
  match c with NA => true | _ => false end.

(** [nunique()] with the default [dropna=True]: the length of [unique()]
    once the missing value is removed from it. *)
Definition nunique (s : list cell) : nat :=
  length (filter (λ c, isnull c = false) (unique s)).

(** *** Null and negative scans *)

(** [df.isnull().any()]: per column, whether some cell is missing. *)
Definition isnull_any (df : DataFrame) : list bool :=
  map (λ j, existsb isnull (column_values df j)) (seq 0 (length (header df))).

(** [index[mask]]: the labels whose mask entry is [True]. *)
Definition mask_select {A} (labels : list A) (mask : list bool) : list A :=
  (filter (λ p, p.2 = true) (zip labels mask)).*1.

(** [df.columns[df.isnull().any()].tolist()] *)
Definition null_columns (df : DataFrame) : list string :=
  mask_select (columns df) (isnull_any df).

(** [x < 0] on a cell of a numeric column (false on NaN). *)
Definition lt_zero (c : cell) : bool :=
  match c with Num x => num_ltb x num_zero | _ => false end.

(** [df.select_dtypes(include="number").columns], each with its position
    in the frame. *)
Definition select_dtypes_number (df : DataFrame) : list (nat * string) :=
  omap (λ p, if decide (p.2.2 = number) then Some (p.1, p.2.1) else None)
       (imap pair (header df)).

(** [[c for c in df.select_dtypes(include="number").columns
       if (df[c] < 0).any()]]; names are unique, so [df[c]] is the column
    at the position of [c]. *)
Definition negative_columns (df : DataFrame) : list string :=
  (filter (λ p, existsb lt_zero (column_values df p.1) = true)
          (select_dtypes_number df)).*2.

(** *** Aggregation sanity *)

(** [pd.to_numeric(_, errors="coerce")] on one cell: numbers stay, booleans
    count as 0 and 1, text is parsed, and what does not parse is missing. *)
Definition to_numeric_cell (c : cell) : option num :=
  match c with
  | Num x => Some x
  | Bool b => Some (num_of_bool b)
  | Str s => num_of_string s
  | NA => None
  end.

Definition to_numeric (s : list cell) : list (option num) :=
  map to_numeric_cell s.

(** [a * b] on two series: elementwise, missing when either side is. *)
Definition series_mul (a b : list (option num)) : list (option num) :=
  zip_with (λ x y,
    match x, y with
    | Some u, Some v => Some (num_mul u v)
    | _, _ => None
    end) a b.

(** [.sum()] with the default [skipna=True]: the missing entries are left
    out; the sum of nothing is zero. *)
Definition series_sum (s : list (option num)) : num :=
  fold_left num_add (omap id s) num_zero.

(** [revenue.sum() - (qty * price).sum()] *)
Definition agg_diff (qty price revenue : list (option num)) : num :=
  num_sub (series_sum revenue) (series_sum (series_mul qty price)).

(** ["PASS" if abs(diff) <= 0.01 else "FAIL"] *)
Definition agg_status_of (diff : num) : string :=
  if num_leb (num_abs diff) num_lit_0_01 then "PASS" else "FAIL".

(** *** The checks as the script assigns them *)

(** [duplicate_count = df.duplicated().sum()] *)
Definition duplicate_count (df : DataFrame) : nat :=
  sum_bool (duplicated (rows df)).

(** ["PASS" if count == 0 else "WARNING"], for both duplicate checks. *)
Definition dup_status (count : nat) : string :=
  if (count =? 0)%nat then "PASS" else "WARNING".

(** [pk_duplicate_count = df[primary_key].duplicated().sum()] *)
Definition pk_duplicate_count (key : list cell) : nat :=
  sum_bool (duplicated key).

(** [round(total_rows / unique_keys, 2) if unique_keys > 0 else None] *)
Definition duplication_ratio (total_rows unique_keys : nat)
    : result (option Py.float) :=
  if (0 <? unique_keys)%nat
  then
    let* quotient := Py.truediv (Z.of_nat total_rows) (Z.of_nat unique_keys) in
    inr (Some (Py.round2 quotient))
  else inr None.

(** The three-way threshold on a ratio that is not [None]. *)
Definition join_risk (ratio : Py.float) : string :=
  if Py.leb ratio Py.lit_1_05 then "LOW"
  else if Py.leb ratio Py.lit_2 then "MEDIUM"
  else "HIGH".

(** The names the script has bound once the checks have run.
    [v_join_risk_status] is [None] when the name [join_risk_status] was
    never assigned: the assignment sits under
    [if duplication_ratio is not None]. *)
Record variables := mkVariables {
  v_total_rows : nat;
  v_duplicate_count : nat;
  v_dup_status : string;
  v_pk_duplicate_count : nat;
  v_pk_status : string;
  v_unique_keys : nat;
  v_duplication_ratio : option Py.float;
  v_join_risk_status : option string;
  v_null_columns : list string;
  v_negative_columns : list string;
  v_agg_status : string
}.

(** The script from the loaded frame down to the aggregation check, for the
    user's column selections.  Each [explain] call and each column access
    can raise. *)
Definition checks (df : DataFrame)
    (primary_key quantity_col price_col revenue_col : string) : result variables :=
  let total_rows := (shape df).1 in
  let dups := duplicate_count df in
  let* _ := explain "duplicates" (dup_status dups) in
  let* key := getitem df primary_key in
  let pk_dups := pk_duplicate_count key in
  let* _ := explain "pk_duplicates" (dup_status pk_dups) in
  let unique_keys := nunique key in
  let* ratio := duplication_ratio total_rows unique_keys in
  let* risk :=
    match ratio with
    | Some r =>
        let* _ := explain "join_risk" (join_risk r) in
        inr (Some (join_risk r))
    | None => inr None
    end in
  let nulls := null_columns df in
  let negatives := negative_columns df in
  let* qty := getitem df quantity_col in
  let* price := getitem df price_col in
  let* revenue := getitem df revenue_col in
  let status :=
    agg_status_of (agg_diff (to_numeric qty) (to_numeric price) (to_numeric revenue)) in
  let* _ := explain "aggregation" status in
  inr {| v_total_rows := total_rows;
         v_duplicate_count := dups;
         v_dup_status := dup_status dups;
         v_pk_duplicate_count := pk_dups;
         v_pk_status := dup_status pk_dups;
         v_unique_keys := unique_keys;
         v_duplication_ratio := ratio;
         v_join_risk_status := risk;
         v_null_columns := nulls;
         v_negative_columns := negatives;
         v_agg_status := status |}.

(** ** Context builder *)

Definition nl : string := String (ascii_of_nat 10) EmptyString.

(** [', '.join(cols) if cols else 'None'] *)
Definition render_columns (cols : list string) : string :=
  match cols with
  | [] => "None"
  | _ => String.concat ", " cols
  end.

(** The f-string of [build_gpt_context], line by line; it opens and closes
    with a newline. *)
Definition build_gpt_context (df : DataFrame)
    (duplicate_count pk_duplicate_count : nat)
    (null_columns negative_columns : list string)
    (agg_status join_risk_status : string) : string :=
  String.concat nl
    [ "";
      "This document is a SQL report exported as CSV.";
      "";
      "Dataset overview:";
      "- Rows: " +:+ pretty (shape df).1;
      "- Columns: " +:+ pretty (shape df).2;
      "";
      "Validation findings:";
      "- Duplicate rows: " +:+ pretty duplicate_count;
      "- Primary key duplicates: " +:+ pretty pk_duplicate_count;
      "- Columns with nulls: " +:+ render_columns null_columns;
      "- Columns with negative values: " +:+ render_columns negative_columns;
      "- Aggregation sanity status: " +:+ agg_status;
      "- Join inflation risk: " +:+ join_risk_status;
      "";
      "Answer strictly using this information.";
      "If unsure, say so clearly.";
      "" ].

End Engine.

Arguments cell : clear implicits.
Arguments DataFrame : clear implicits.

(** ** The Ask handler *)

(** Characters are the code points below 256; these are the ones
    [str.strip()] removes. *)
Definition isspace (c : ascii) : bool :=
  let n := nat_of_ascii c in
  ((9 <=? n) && (n <=? 13) || (28 <=? n) && (n <=? 32)
   || (n =? 133) || (n =? 160))%nat.

Fixpoint lstrip (s : string) : string :=
  match s with
  | EmptyString => EmptyString
  | String c s' => if isspace c then lstrip s' else s
  end.

Fixpoint rstrip (s : string) : string :=
  match s with
  | EmptyString => EmptyString
  | String c s' =>
      match rstrip s' with
      | EmptyString => if isspace c then EmptyString else String c EmptyString
      | t => String c t
      end
  end.

(** [s.strip()] *)
Definition strip (s : string) : string := rstrip (lstrip s).

(** Truth value of a string: non-empty. *)
Definition truthy (s : string) : bool :=
  match s with EmptyString => false | _ => true end.

(** The request [client.chat.completions.create] sends. *)
Record request := mkRequest {
  req_api_key : string;
  req_model : string;
  req_messages : list (string * string);
  req_temperature : Q
}.

(** What the handler does that the user or the network can see. *)
Inductive event :=
  | st_error (msg : string)
  | st_warning (msg : string)
  | chat_completions_create (req : request)
  | st_markdown (body : string)
  | st_write (body : string).


Definition key_not_found : string :=
  "OpenAI API key not found." +:+ nl +:+ nl +:+
  "Local: add it to .streamlit/secrets.toml" +:+ nl +:+
  "Cloud: add it in App → Settings → Secrets".

Definition system_prompt : string :=
  "You are a senior data analyst. " +:+
  "Answer strictly using the provided report context.".

(** The body of [if st.button("Ask"):].  [api_key] is what
    [get_openai_api_key()] returned ([None] when neither the secret store
    nor the environment has it); [service] stands for the completion
    service and returns the text of its first choice.  The result is the
    trace of events and the exception that ended the run, if any. *)
Definition ask {num} `{!Numeric num} (service : request → string)
    (df : DataFrame num) (v : variables)
    (api_key : option string) (user_question : string)
    : list event * option exception :=
  match api_key with
  | Some key =>
      if truthy key then
        if truthy (strip user_question) then
          match v_join_risk_status v with
          | None => ([], Some (NameError "join_risk_status"))
          | Some risk =>
              let context :=
                build_gpt_context df (v_duplicate_count v) (v_pk_duplicate_count v)
                  (v_null_columns v) (v_negative_columns v) (v_agg_status v) risk in
              let req :=
                {| req_api_key := key;
                   req_model := "gpt-4o-mini";
                   req_messages :=
                     [ ("system", system_prompt);
                       ("user", context);
                       ("user", user_question) ];
                   req_temperature := 2 # 10 |} in
              ([ chat_completions_create req;
                 st_markdown "### 🤖 Answer";
                 st_write (service req) ], None)
          end
        else ([st_warning "Please enter a question."], None)
      else ([st_error key_not_found], None)
  | None => ([st_error key_not_found], None)
  end.

(** One run of the script on a loaded frame: the checks, then the handler
    when the button was pressed. *)
Definition script {num} `{!Numeric num} (service : request → string)
    (df : DataFrame num)
    (primary_key quantity_col price_col revenue_col : string)
    (api_key : option string) (user_question : string) (ask_pressed : bool)
    : list event * option exception :=
  match checks df primary_key quantity_col price_col revenue_col with
  | inl e => ([], Some e)
  | inr v =>
      if ask_pressed then ask service df v api_key user_question
      else ([], None)
  end.

(** ** Vocabulary of the specification *)

(** A credential is configured: the resolved key is there and not empty. *)
Definition api_key_present (api_key : option string) : Prop :=
  ∃ key, api_key = Some key ∧ key ≠ "".

(** The question is empty or whitespace only. *)
Definition blank (s : string) : Prop :=
  Forall (λ c, isspace c = true) (list_ascii_of_string s).

(** Position [i] of [l] holds a value that an earlier position holds too. *)
Definition repeats_earlier {A} (l : list A) (i : nat) : Prop :=
  ∃ j x, (j < i)%nat ∧ l !! j = Some x ∧ l !! i = Some x.

(** [r] hundredths is a two-decimal number nearest to [total / distinct]:
    [|r/100 - total/distinct| <= 1/200]. *)
Definition nearest_hundredths (r : Z) (total distinct : nat) : Prop :=
  2 * Z.abs (r * Z.of_nat distinct - 100 * Z.of_nat total) ≤ Z.of_nat distinct.

Section Sums.
Context {num : Type} `{!Numeric num}.



(** Adding up from zero, left to right. *)
Definition total (values : list num) : num := fold_left num_add values num_zero.

End Sums.

(** ** An instance of the arithmetic for running the checks

    Numbers as exact rationals: on columns of small integers, as in the
    examples of the specification, int64 and binary64 arithmetic compute the
    same values.  Text parses when it is a decimal numeral with an optional
    sign and fraction; [0.01] has the exact value of the double. *)

Fixpoint digits_value (s : string) (acc : Z) : option Z :=
  match s with
  | EmptyString => Some acc
  | String c s' =>
      let n := nat_of_ascii c in
      if ((48 <=? n) && (n <=? 57))%nat
      then digits_value s' (10 * acc + Z.of_nat (n - 48))
      else None
  end.

(** The text before the first ["."] and the text after it. *)
Fixpoint split_point (s : string) : string * string :=
  match s with
  | EmptyString => (EmptyString, EmptyString)
  | String c s' =>
      if Ascii.eqb c "." then (EmptyString, s')
      else let '(a, b) := split_point s' in (String c a, b)
  end.

Definition decimal_of_string (s : string) : option Qc :=
  let '(negative, body) :=
    match s with
    | String "-" r => (true, r)
    | _ => (false, s)
    end in
  let '(ip, fp) := split_point body in
  if truthy ip then
    match digits_value ip 0, digits_value fp 0 with
    | Some i, Some f =>
        let scale := 10 ^ Z.of_nat (String.length fp) in
        let v := Q2Qc (Qmake (i * scale + f) (Z.to_pos scale)) in
        Some (if negative then (- v)%Qc else v)
    | _, _ => None
    end
  else None.

#[global] Instance exact_numeric : Numeric Qc := {|
  num_zero := 0%Qc;
  num_add := Qcplus;
  num_sub := Qcminus;
  num_mul := Qcmult;
  num_abs := λ x, if bool_decide (x < 0)%Qc then (- x)%Qc else x;
  num_leb := λ x y, bool_decide (x ≤ y)%Qc;
  num_ltb := λ x y, bool_decide (x < y)%Qc;
  num_of_bool := λ b, if b then 1%Qc else 0%Qc;
  num_of_string := decimal_of_string;
  num_lit_0_01 := Q2Qc (Py.to_Q (Py.of_ratio 1 100))
|}.

(** Integer cells, for writing frames down. *)
Definition int (z : Z) : cell Qc := Num (Q2Qc (inject_Z z)).

(** ** Frames for running the checks *)

(** The aggregation example of the specification: quantities 2 and 3 at
    price 5, reported as 10 and [last_revenue]. *)
Definition sales (last_revenue : Z) : DataFrame Qc :=
  mkDataFrame
    [ ("quantity", number); ("price", number); ("revenue", number) ]
    [ [ int 2; int 5; int 10 ];
      [ int 3; int 5; int last_revenue ] ].

(** The same amounts read as text, with a row that does not parse. *)
Definition sales_as_text : DataFrame Qc :=
  mkDataFrame
    [ ("quantity", object); ("price", number); ("revenue", object) ]
    [ [ Str "2"; int 5; Str "10" ];
      [ Str "n/a"; int 5; Str "pending" ];
      [ Str "3"; int 5; Str "15.0" ] ].

(** Three columns of which only ["B"] has a missing cell. *)
Definition gap_in_B : DataFrame Qc :=
  mkDataFrame
    [ ("A", number); ("B", object); ("C", number) ]
    [ [ int 1; Str "x"; int 3 ];
      [ int 2; NA; int 4 ] ].

(** A text column whose values look like negative numbers, next to a
    numeric column with a negative value and one without. *)
Definition ledger : DataFrame Qc :=
  mkDataFrame
    [ ("id", number); ("note", object); ("delta", number) ]
    [ [ int 1; Str "-5"; int 4 ];
      [ int 2; Str "-7"; int (-3) ] ].

(** Two rows whose ["ref"] column is missing throughout. *)
Definition no_refs : DataFrame Qc :=
  mkDataFrame
    [ ("id", number); ("ref", number) ]
    [ [ int 1; NA ];
      [ int 2; NA ] ].

(** A completion service for running the handler. *)
Definition echo_service (req : request) : string := "ok".

(** ** Credential resolution *)

(** What the [try] block of [get_openai_api_key] does: it returns the
    secret, falls through because the secret is not there, or raises
    because there is no secrets file to read. *)
Inductive attempt :=
  | returned (value : string)
  | fell_through
  | raised.

(** [st_secrets] is the parsed secrets file, [None] when every access to
    [st.secrets] raises. *)
Definition try_secrets (st_secrets : option (gmap string string)) : attempt :=
  match st_secrets with
  | None => raised
  | Some secrets =>
      match secrets !! "OPENAI_API_KEY" with
      | Some value => returned value
      | None => fell_through
      end
  end.

(** [os.getenv(name)] *)
Definition os_getenv (environ : gmap string string) (name : string)
    : option string :=
  environ !! name.

(** [get_openai_api_key()]: the secret when the [try] block returns one;
    after [except Exception: pass] or a fall-through, the environment
    variable. *)
Definition get_openai_api_key (st_secrets : option (gmap string string))
    (environ : gmap string string) : option string :=
  match try_secrets st_secrets with
  | returned value => Some value
  | fell_through | raised => os_getenv environ "OPENAI_API_KEY"
  end.

(** One run of the script with the credential resolved as the script does
    it, [api_key = get_openai_api_key()]. *)
Definition rerun {num} `{!Numeric num} (service : request → string)
    (st_secrets : option (gmap string string)) (environ : gmap string string)
    (df : DataFrame num)
    (primary_key quantity_col price_col revenue_col : string)
    (user_question : string) (ask_pressed : bool)
    : list event * option exception :=
  script service df primary_key quantity_col price_col revenue_col
         (get_openai_api_key st_secrets environ) user_question ask_pressed.

(** * Properties

    ** Binary64 division and rounding *)

#[local] Set Warnings "-clear-no-such-hyp,-inexact-float".

(** The model of [int / int] agrees with the kernel's IEEE 754 division
    on a sample of quotients, exact ties in decimal among them. *)
Example truediv_agrees_with_binary64 :
  forallb (λ p, PrimFloat.eqb (Py.prim_div p.1 p.2) (Py.to_prim (Py.of_ratio p.1 p.2)))
    [ (203, 200); (211, 200); (43, 40); (9, 8); (1, 3); (3, 1); (2, 3);
      (1000, 7); (123456789, 1000); (105300709155275, 9); (7, 1000000007) ]
  = true.
Proof. vm_compute. reflexivity. Qed.

(** So do the literals of the script. *)
Example literals_agree_with_binary64 :
  PrimFloat.eqb (Py.to_prim Py.lit_1_05) 1.05%float = true
  ∧ PrimFloat.eqb (Py.to_prim Py.lit_2) 2%float = true.
Proof. split; vm_compute; reflexivity. Qed.

(** [round(203 / 200, 2)] is [1.01] and [round(211 / 200, 2)] is [1.05]: the
    doubles nearest to 1.015 and 1.055 lie below them.  [round(9 / 8, 2)]
    is [1.12]: 1.125 is a double, and the tie goes to the even digit. *)
Example round2_of_decimal_ties :
  Py.hundredths (Py.of_ratio 203 200) = 101
  ∧ Py.hundredths (Py.of_ratio 211 200) = 105
  ∧ Py.hundredths (Py.of_ratio 9 8) = 112.
Proof. repeat split. Qed.

(** The three ratios of the specification's examples: 1.0 is LOW, 1.5 is
    MEDIUM, 3.0 is HIGH; no distinct key gives no ratio. *)
Example join_risk_examples :
  (let* ratio := duplication_ratio 4 4 in inr (join_risk <$> ratio))
    = inr (Some "LOW")
  ∧ (let* ratio := duplication_ratio 3 2 in inr (join_risk <$> ratio))
    = inr (Some "MEDIUM")
  ∧ (let* ratio := duplication_ratio 3 1 in inr (join_risk <$> ratio))
    = inr (Some "HIGH")
  ∧ duplication_ratio 3 0 = inr None.
Proof. repeat split. Qed.

Section Binary64.
Import Py.

Lemma round_half_even_error n d :
  0 < d → - d ≤ 2 * (round_half_even n d * d - n) ≤ d.
Proof.
  intros Hd. unfold round_half_even.
  pose proof (Z.div_mod n d ltac:(lia)) as Hdm.
  pose proof (Z.mod_pos_bound n d Hd) as Hm.
  repeat case_match; rewrite ?Z.ltb_lt, ?Z.ltb_ge in *; nia.
Qed.

Lemma round_half_even_ge n d k :
  0 < d → k * d ≤ n → k ≤ round_half_even n d.
Proof.
  intros Hd Hk. unfold round_half_even.
  assert (k ≤ n / d) by (apply Z.div_le_lower_bound; lia).
  repeat case_match; lia.
Qed.

Lemma binexp_spec a b :
  0 < b → b ≤ a →
  0 ≤ binexp a b ≤ Z.log2 a ∧ b * 2 ^ binexp a b ≤ a.
Proof.
  intros Hb Hab. unfold binexp.
  pose proof (Z.log2_le_mono b a Hab) as Hmono.
  pose proof (Z.log2_nonneg b) as Hlb.
  destruct (Z.leb_spec 0 (Z.log2 a - Z.log2 b)) as [_|]; [|lia].
  destruct (Z.leb_spec (b * 2 ^ (Z.log2 a - Z.log2 b)) a) as [Hfit|Hnofit].
  - lia.
  - assert (Z.log2 a - Z.log2 b ≠ 0) as Hne.
    { intros Heq. rewrite Heq in Hnofit. simpl in Hnofit. lia. }
    split; [lia|].
    destruct (Z.log2_spec a ltac:(lia)) as [Ha _].
    destruct (Z.log2_spec b Hb) as [_ Hb'].
    assert (2 ^ Z.log2 a = 2 ^ (Z.log2 a - Z.log2 b - 1) * 2 ^ Z.succ (Z.log2 b)) as Hsplit.
    { rewrite <- Z.pow_add_r by lia. f_equal. lia. }
    assert (0 < 2 ^ (Z.log2 a - Z.log2 b - 1)) by (apply Z.pow_pos_nonneg; lia).
    nia.
Qed.

Lemma binexp_ge a b : Z.log2 a - Z.log2 b - 1 ≤ binexp a b.
Proof. unfold binexp. repeat case_match; lia. Qed.

(** For a quotient of at least one below [2^45], the division keeps a
    negative exponent and the rounded hundredths are a nearest integer to
    the exact [100 * a / b]. *)
Lemma hundredths_of_ratio_nearest a b :
  0 < b → b ≤ a → a < 2 ^ 45 →
  let r := hundredths (of_ratio a b) in
  100 ≤ r ∧ - b ≤ 2 * (r * b - 100 * a) ≤ b.
Proof.
  intros Hb Hab Ha.
  destruct (binexp_spec a b Hb Hab) as [[Hk0 Hk1] Hk2].
  assert (Z.log2 a < 45) as Hlog by (apply Z.log2_lt_pow2; lia).
  unfold of_ratio.
  destruct (Z.eqb_spec a 0) as [|_]; [lia|].
  set (k := binexp a b) in *.
  destruct (Z.leb_spec 0 (k - 52)) as [|_]; [lia|].
  unfold hundredths; cbn [expo mant].
  destruct (Z.leb_spec 0 (k - 52)) as [|_]; [lia|].
  replace (- (k - 52)) with (52 - k) by lia.
  set (T := 2 ^ (52 - k)).
  assert (0 < T) as HT by (apply Z.pow_pos_nonneg; lia).
  assert (2 ^ k * T = 2 ^ 52) as Hsplit.
  { unfold T. rewrite <- Z.pow_add_r by lia. f_equal. lia. }
  assert (0 < 2 ^ k) as Hpk by (apply Z.pow_pos_nonneg; lia).
  set (m := round_half_even (a * T) b).
  pose proof (round_half_even_error (a * T) b Hb) as HA. fold m in HA.
  assert (T ≤ m) as HmT by (apply round_half_even_ge; nia).
  set (r := round_half_even (100 * m) T).
  pose proof (round_half_even_error (100 * m) T HT) as HC. fold r in HC.
  assert (100 ≤ r) as Hr by (apply round_half_even_ge; nia).
  split; [exact Hr|].
  assert (b * 2 ^ 52 ≤ a * T) as HB by nia.
  assert (100 * a < 2 ^ 52) as Ha' by lia.
  assert (100 * b < T) as HTb.
  { destruct (Z.lt_ge_cases (100 * b) T) as [|Hge]; [done|]. exfalso.
    assert (a * T ≤ a * (100 * b)) by nia. nia. }
  set (D := r * b - 100 * a).
  assert (- (100 * b + b * T) ≤ 2 * D * T ≤ 100 * b + b * T) as HD.
  { unfold D. nia. }
  assert (- (b + 1) * T < 2 * D * T < (b + 1) * T) as HD' by nia.
  assert (- (b + 1) < 2 * D < b + 1) by nia.
  lia.
Qed.

Lemma thresholds_below_512 :
  forallb (λ r,
    Bool.eqb (leb (of_ratio r 100) lit_1_05) (r <=? 105)
    && Bool.eqb (leb (of_ratio r 100) lit_2) (r <=? 200))
    (map Z.of_nat (seq 100 412)) = true.
Proof. vm_compute. reflexivity. Qed.

Lemma thresholds r :
  100 ≤ r → r < 2 ^ 52 →
  leb (of_ratio r 100) lit_1_05 = (r <=? 105)
  ∧ leb (of_ratio r 100) lit_2 = (r <=? 200).
Proof.
  intros Hlo Hhi.
  destruct (Z.lt_ge_cases r 512) as [Hsmall|Hbig].
  - pose proof thresholds_below_512 as Hall.
    rewrite forallb_forall in Hall.
    specialize (Hall r).
    rewrite andb_true_iff, !Bool.eqb_true_iff in Hall. apply Hall.
    apply in_map_iff. exists (Z.to_nat r). split; [lia|].
    apply in_seq. lia.
  - destruct (binexp_spec r 100 ltac:(lia) ltac:(lia)) as [[Hk0 Hk1] Hk2].
    pose proof (binexp_ge r 100) as Hk3.
    assert (Z.log2 r < 52) as Hlog by (apply Z.log2_lt_pow2; lia).
    assert (9 ≤ Z.log2 r) as Hlog' by (apply Z.log2_le_pow2; lia).
    change (Z.log2 100) with 6 in Hk3.
    unfold of_ratio.
    destruct (Z.eqb_spec r 0) as [|_]; [lia|].
    set (k := binexp r 100) in *.
    destruct (Z.leb_spec 0 (k - 52)) as [|_]; [lia|].
    replace (- (k - 52)) with (52 - k) by lia.
    set (T := 2 ^ (52 - k)).
    assert (0 < T) as HT by (apply Z.pow_pos_nonneg; lia).
    assert (2 ^ k * T = 2 ^ 52) as Hsplit.
    { unfold T. rewrite <- Z.pow_add_r by lia. f_equal. lia. }
    assert (2 ^ 52 ≤ round_half_even (r * T) 100) as Hm.
    { apply round_half_even_ge; [lia|]. rewrite <- Hsplit. nia. }
    set (m := round_half_even (r * T) 100) in *.
    assert (2 ^ 2 ≤ 2 ^ k) as Hp2 by (apply Z.pow_le_mono_r; lia).
    assert (2 ^ 1 ≤ 2 ^ (k - 1)) as Hp1 by (apply Z.pow_le_mono_r; lia).
    change (lit_1_05) with (mkfloat 4728779608739021 (-52)).
    change (lit_2) with (mkfloat 4503599627370496 (-51)).
    unfold leb; cbn [mant expo].
    rewrite !Z.min_r by lia.
    replace (k - 52 - -52) with k by lia.
    replace (k - 52 - -51) with (k - 1) by lia.
    change (-52 - -52) with 0. change (-51 - -51) with 0.
    split; symmetry.
    + transitivity false; [apply Z.leb_gt; lia|symmetry; apply Z.leb_gt; nia].
    + transitivity false; [apply Z.leb_gt; lia|symmetry; apply Z.leb_gt; nia].
Qed.
End Binary64.
(** ** duplicated and unique *)

Local Close Scope Z_scope.

Section SeriesFacts.
Context {A : Type} `{!EqDecision A}.
Implicit Types (l seen : list A) (x : A).

Lemma sum_bool_cons (b : bool) (bs : list bool) :
  sum_bool (b :: bs) = ((if b then 1 else 0) + sum_bool bs)%nat.
Proof. unfold sum_bool. rewrite filter_cons. destruct b; case_decide; simpl; congruence. Qed.

Lemma duplicated_from_length seen l :
  length (duplicated_from seen l) = length l.
Proof. revert seen. induction l as [|x l IH]; intros seen; simpl; [done|]. by rewrite IH. Qed.

Lemma duplicated_from_lookup seen l i :
  duplicated_from seen l !! i = Some true
  ↔ ∃ x, l !! i = Some x ∧ (x ∈ seen ∨ x ∈ take i l).
Proof.
  revert seen i. induction l as [|y l IH]; intros seen i; simpl.
  - split; [done|]. intros (x & Hx & _). done.
  - destruct i as [|i]; simpl.
    + split.
      * intros [= Hd]. apply bool_decide_eq_true in Hd. eauto.
      * intros (x & [= ->] & [Hin|Hin]); [|by apply elem_of_nil in Hin].
        f_equal. by apply bool_decide_eq_true.
    + rewrite IH. split; intros (x & Hx & Hin); exists x; (split; [done|]).
      * rewrite elem_of_cons in Hin. rewrite elem_of_cons. naive_solver.
      * rewrite elem_of_cons in Hin. rewrite elem_of_cons. naive_solver.
Qed.

Lemma duplicated_lookup l i :
  duplicated l !! i = Some true
  ↔ ∃ j x, (j < i)%nat ∧ l !! j = Some x ∧ l !! i = Some x.
Proof.
  unfold duplicated. rewrite duplicated_from_lookup. split.
  - intros (x & Hx & [Hin|Hin]); [by apply elem_of_nil in Hin|].
    apply list_elem_of_lookup in Hin as [j Hj].
    apply lookup_take_Some in Hj as [Hj Hlt]. eauto.
  - intros (j & x & Hlt & Hj & Hi). exists x. split; [done|]. right.
    apply list_elem_of_lookup. exists j. by apply lookup_take_Some.
Qed.

Lemma unique_from_elem_of seen l x :
  x ∈ unique_from seen l ↔ x ∈ l ∧ x ∉ seen.
Proof.
  revert seen. induction l as [|y l IH]; intros seen; simpl.
  - rewrite elem_of_nil. naive_solver.
  - case_decide as Hy.
    + rewrite IH, elem_of_cons. naive_solver.
    + rewrite elem_of_cons, IH, !elem_of_cons.
      destruct (decide (x = y)); naive_solver.
Qed.

Lemma unique_from_NoDup seen l : NoDup (unique_from seen l).
Proof.
  revert seen. induction l as [|y l IH]; intros seen; simpl.
  - constructor.
  - case_decide; [done|]. constructor; [|done].
    rewrite unique_from_elem_of, elem_of_cons. naive_solver.
Qed.

Lemma duplicated_unique_length seen l :
  (sum_bool (duplicated_from seen l) + length (unique_from seen l) = length l)%nat.
Proof.
  revert seen. induction l as [|y l IH]; intros seen; simpl; [done|].
  rewrite sum_bool_cons. case_decide as Hy.
  - rewrite bool_decide_eq_true_2 by done. specialize (IH (y :: seen)).
    assert (length (unique_from (y :: seen) l) = length (unique_from seen l)) as <-; [|lia].
    apply Permutation_length, NoDup_Permutation; auto using unique_from_NoDup.
    intros x. rewrite !unique_from_elem_of, elem_of_cons.
    split; [naive_solver|]. intros [Hx Hs]. split; [done|].
    intros [->|]; done.
  - rewrite bool_decide_eq_false_2 by done. simpl. specialize (IH (y :: seen)). lia.
Qed.

Lemma unique_elem_of l x : x ∈ unique l ↔ x ∈ l.
Proof. unfold unique. rewrite unique_from_elem_of, elem_of_nil. naive_solver. Qed.

Lemma unique_NoDup l : NoDup (unique l).
Proof. apply unique_from_NoDup. Qed.

Lemma unique_length_same_elements l k :
  (∀ x, x ∈ l ↔ x ∈ k) → length (unique l) = length (unique k).
Proof.
  intros Hlk. apply Permutation_length, NoDup_Permutation; auto using unique_NoDup.
  intros x. by rewrite !unique_elem_of.
Qed.

Lemma unique_length_NoDup l : NoDup l → length (unique l) = length l.
Proof.
  intros Hl. apply Permutation_length, NoDup_Permutation; auto using unique_NoDup.
  apply unique_elem_of.
Qed.

Lemma sum_duplicated l :
  (sum_bool (duplicated l) + length (unique l) = length l)%nat.
Proof. apply duplicated_unique_length. Qed.

Lemma unique_length_le l : (length (unique l) ≤ length l)%nat.
Proof. pose proof (sum_duplicated l). lia. Qed.

Lemma sum_duplicated_from_zero seen l :
  sum_bool (duplicated_from seen l) = 0%nat ↔ NoDup l ∧ ∀ x, x ∈ l → x ∉ seen.
Proof.
  revert seen. induction l as [|y l IH]; intros seen; simpl.
  - split; [|done]. intros _. split; [constructor|]. intros x Hx. by apply elem_of_nil in Hx.
  - rewrite sum_bool_cons, NoDup_cons. split.
    + intros Hz. destruct (bool_decide_reflect (y ∈ seen)) as [|Hy]; [done|].
      simpl in Hz. apply IH in Hz as [Hnd Hseen]. split_and!; [|done|].
      * intros Hin. apply (Hseen y Hin). left.
      * intros x [->|Hx]%elem_of_cons; [done|].
        intros Hxs. apply (Hseen x Hx). by right.
    + intros [[Hy Hnd] Hseen].
      rewrite bool_decide_eq_false_2 by (apply Hseen; left). simpl.
      apply IH. split; [done|]. intros x Hx [->|Hxs]%elem_of_cons; [done|].
      by apply (Hseen x); [right|].
Qed.

Lemma sum_duplicated_zero l : sum_bool (duplicated l) = 0%nat ↔ NoDup l.
Proof.
  unfold duplicated. rewrite sum_duplicated_from_zero. split; [by intros []|].
  intros Hnd. split; [done|]. intros x _ Hx. by apply elem_of_nil in Hx.
Qed.

(** One more copy of an element of a duplicate-free list, put anywhere,
    is the only flagged element. *)
Lemma sum_duplicated_copy l1 l2 x :
  NoDup (l1 ++ l2) → x ∈ l1 ++ l2 →
  sum_bool (duplicated (l1 ++ x :: l2)) = 1%nat.
Proof.
  intros Hnd Hx. pose proof (sum_duplicated (l1 ++ x :: l2)) as Hs.
  rewrite (unique_length_same_elements _ (l1 ++ l2)) in Hs.
  - rewrite unique_length_NoDup in Hs by done.
    rewrite !length_app in Hs. simpl in Hs. lia.
  - intros y. rewrite !elem_of_app, elem_of_cons. rewrite elem_of_app in Hx.
    split; [|tauto]. intros [|[->|]]; tauto.
Qed.

(** Overwriting position [j] of a duplicate-free list with the element at
    another position [i] leaves exactly one flagged element. *)
Lemma sum_duplicated_collapse l i j x :
  NoDup l → i ≠ j → l !! i = Some x → (j < length l)%nat →
  sum_bool (duplicated (<[j:=x]> l)) = 1%nat.
Proof.
  intros Hnd Hij Hi Hj.
  destruct (lookup_lt_is_Some_2 l j Hj) as [y Hy].
  rewrite insert_take_drop by done.
  pose proof (take_drop_middle l j y Hy) as Hsplit.
  rewrite <- Hsplit in Hnd.
  apply sum_duplicated_copy.
  - apply NoDup_app in Hnd as (H1 & H2 & H3). apply NoDup_cons in H3 as [_ H3].
    apply NoDup_app. split_and!; [done| |done].
    intros z Hz1 Hz2. apply (H2 z Hz1). by right.
  - apply elem_of_app. destruct (decide (i < j)%nat).
    + left. apply list_elem_of_lookup. exists i. by apply lookup_take_Some.
    + right. apply list_elem_of_lookup. exists (i - S j)%nat.
      rewrite lookup_drop. rewrite <- Hi. f_equal. lia.
Qed.

End SeriesFacts.
(** *** Catalogue *)

Lemma explain_unfold check severity :
  explain check severity =
  match messages !! check with
  | Some inner =>
      match inner !! severity with
      | Some e => inr e
      | None => inl (KeyError severity)
      end
  | None => inl (KeyError check)
  end.
Proof. unfold explain, dict_getitem, bind, raise. by destruct (messages !! check). Qed.

Ltac split_key k s :=
  destruct (decide (k = s)) as [->|];
  [rewrite ?lookup_insert_eq, ?lookup_singleton_eq
  |rewrite ?(lookup_insert_ne _ s k), ?(lookup_singleton_ne s k) by done].

Lemma explain_cases check severity :
  match explain check severity with
  | inr e =>
      (check, severity) ∈ enumerated ∧ e.1.1 ≠ "" ∧ e.1.2 ≠ "" ∧ e.2 ≠ ""
  | inl e => ((check, severity) ∉ enumerated) ∧ is_LookupError e = true
  end.
Proof.
  rewrite explain_unfold. unfold messages, enumerated.
  split_key check "duplicates".
  { split_key severity "PASS"; [set_solver|].
    split_key severity "WARNING"; [set_solver|]. set_solver. }
  split_key check "pk_duplicates".
  { split_key severity "PASS"; [set_solver|].
    split_key severity "WARNING"; [set_solver|]. set_solver. }
  split_key check "aggregation".
  { split_key severity "PASS"; [set_solver|].
    split_key severity "FAIL"; [set_solver|]. set_solver. }
  split_key check "join_risk".
  { split_key severity "LOW"; [set_solver|].
    split_key severity "MEDIUM"; [set_solver|].
    split_key severity "HIGH"; [set_solver|]. set_solver. }
  set_solver.
Qed.

Lemma truthy_false s : truthy s = false ↔ s = "".
Proof. destruct s; simpl; split; congruence. Qed.

Lemma rstrip_empty s : rstrip s = "" ↔ blank s.
Proof.
  unfold blank. induction s as [|c s IH]; simpl.
  - split; [constructor|done].
  - rewrite Forall_cons, <- IH. destruct (rstrip s), (isspace c); naive_solver.
Qed.

Lemma lstrip_blank s : blank (lstrip s) ↔ blank s.
Proof.
  unfold blank. induction s as [|c s IH]; simpl; [done|].
  destruct (isspace c) eqn:Hc; simpl.
  - rewrite IH, Forall_cons. naive_solver.
  - done.
Qed.

Lemma strip_empty s : strip s = "" ↔ blank s.
Proof. unfold strip. by rewrite rstrip_empty, lstrip_blank. Qed.

Lemma append_assoc (s1 s2 s3 : string) : (s1 +:+ s2) +:+ s3 = s1 +:+ (s2 +:+ s3).
Proof.
  induction s1 as [|c s1 IH]; [done|].
  change (String c ((s1 +:+ s2) +:+ s3) = String c (s1 +:+ s2 +:+ s3)).
  by rewrite IH.
Qed.

Lemma context_lines {num} `{!Numeric num} (df : DataFrame num) dups pk_dups nulls negs agg risk :
  build_gpt_context df dups pk_dups nulls negs agg risk =
  (nl +:+ "This document is a SQL report exported as CSV." +:+ nl +:+ nl
   +:+ "Dataset overview:" +:+ nl
   +:+ "- Rows: " +:+ pretty (shape df).1 +:+ nl
   +:+ "- Columns: " +:+ pretty (shape df).2 +:+ nl +:+ nl
   +:+ "Validation findings:" +:+ nl
   +:+ "- Duplicate rows: " +:+ pretty dups +:+ nl
   +:+ "- Primary key duplicates: " +:+ pretty pk_dups)
  +:+ nl +:+ ("- Columns with nulls: " +:+ render_columns nulls) +:+ nl
  +:+ ("- Columns with negative values: " +:+ render_columns negs) +:+ nl
  +:+ ("- Aggregation sanity status: " +:+ agg +:+ nl
       +:+ "- Join inflation risk: " +:+ risk +:+ nl +:+ nl
       +:+ "Answer strictly using this information." +:+ nl
       +:+ "If unsure, say so clearly." +:+ nl).
Proof.
  unfold build_gpt_context. cbn [String.concat].
  rewrite ?append_assoc. reflexivity.
Qed.
(** ** Frames *)

Lemma singleton_of_NoDup {A} (l : list A) (b : A) :
  NoDup l → (∀ x, x ∈ l ↔ x = b) → l = [b].
Proof.
  intros Hnd Hl. destruct l as [|x l].
  - exfalso. eapply elem_of_nil, Hl. reflexivity.
  - assert (x = b) as -> by (apply Hl; left).
    apply NoDup_cons in Hnd as [Hx Hnd]. destruct l as [|y l]; [done|].
    exfalso. apply Hx. assert (y = b) as -> by (apply Hl; right; left). left.
Qed.

Section FrameFacts.
Context {num : Type} `{!Numeric num}.
Implicit Types (df : DataFrame num) (s : list (cell num)).

Lemma columns_length df : length (columns df) = length (header df).
Proof. unfold columns. by rewrite length_fmap. Qed.

Lemma column_values_length df j : length (column_values df j) = length (rows df).
Proof. unfold column_values. by rewrite length_map. Qed.

Lemma getitem_inr df c s :
  getitem df c = inr s → ∃ j, columns df !! j = Some c ∧ s = column_values df j.
Proof.
  unfold getitem. destruct (list_find _ _) as [[j x]|] eqn:Hfind; [|done].
  intros [= <-]. apply list_find_Some in Hfind as (Hj & -> & _). eauto.
Qed.

Lemma getitem_length df c s : getitem df c = inr s → length s = length (rows df).
Proof. intros (j & _ & ->)%getitem_inr. apply column_values_length. Qed.

Lemma getitem_elem_of df c : c ∈ columns df → ∃ s, getitem df c = inr s.
Proof.
  intros Hc. unfold getitem.
  destruct (list_find_elem_of (λ x, x = c) (columns df) c Hc eq_refl) as [[j x] ->].
  eauto.
Qed.

Lemma getitem_NoDup df c j :
  NoDup (columns df) → columns df !! j = Some c → getitem df c = inr (column_values df j).
Proof.
  intros Hnd Hj. destruct (getitem_elem_of df c) as [s Hs].
  { apply list_elem_of_lookup. eauto. }
  rewrite Hs. apply getitem_inr in Hs as (j' & Hj' & ->).
  by rewrite (NoDup_lookup _ _ _ _ Hnd Hj Hj').
Qed.

(** *** nunique *)

Lemma nunique_le s : nunique s ≤ length s.
Proof.
  unfold nunique. etrans; [apply length_filter|]. apply unique_length_le.
Qed.

Lemma nunique_all_missing s : Forall (λ c, c = NA) s → nunique s = 0.
Proof.
  intros Hs. unfold nunique.
  destruct (filter _ _) as [|c l] eqn:Hf; [done|]. exfalso.
  assert (c ∈ filter (λ c, isnull c = false) (unique s)) as Hc by (rewrite Hf; left).
  apply list_elem_of_filter in Hc as [Hnull Hc]. rewrite unique_elem_of in Hc.
  rewrite Forall_forall in Hs. by rewrite (Hs c Hc) in Hnull.
Qed.

Lemma nunique_full s : nunique s = length s → sum_bool (duplicated s) = 0.
Proof.
  intros Hn. pose proof (sum_duplicated s).
  pose proof (length_filter (λ c, isnull c = false) (unique s)).
  unfold nunique in Hn. lia.
Qed.

(** [nunique] is the number of distinct values that are not missing. *)
Lemma nunique_distinct s (l : list (cell num)) :
  NoDup l → (∀ c, c ∈ l ↔ c ∈ s ∧ c ≠ NA) → length l = nunique s.
Proof.
  intros Hnd Hl. unfold nunique. apply Permutation_length, NoDup_Permutation.
  - done.
  - apply NoDup_filter, unique_NoDup.
  - intros c. rewrite Hl, list_elem_of_filter, unique_elem_of.
    destruct c; simpl; naive_solver.
Qed.

(** *** Null scan *)

Lemma mask_select_elem_of {A} (labels : list A) (mask : list bool) c :
  c ∈ mask_select labels mask
  ↔ ∃ j, labels !! j = Some c ∧ mask !! j = Some true.
Proof.
  unfold mask_select. rewrite list_elem_of_fmap. split.
  - intros ([c' b] & -> & [Hb Hin]%list_elem_of_filter). simpl in *. subst b.
    apply elem_of_lookup_zip_with in Hin as (j & x & y & [= <- <-] & Hx & Hy).
    eauto.
  - intros (j & Hj & Hf). exists (c, true). split; [done|].
    apply list_elem_of_filter. split; [done|].
    apply elem_of_lookup_zip_with. exists j, c, true. done.
Qed.

Lemma mask_select_sublist {A} (labels : list A) (mask : list bool) :
  length labels ≤ length mask → mask_select labels mask `sublist_of` labels.
Proof.
  intros Hlen. unfold mask_select.
  rewrite <- (fst_zip labels mask Hlen) at 2.
  apply fmap_sublist, sublist_filter.
Qed.

Lemma mask_select_length {A} (labels : list A) (mask : list bool) :
  length labels = length mask → length (mask_select labels mask) = sum_bool mask.
Proof.
  unfold mask_select. rewrite length_fmap.
  revert mask. induction labels as [|x labels IH]; intros [|b mask] Hlen;
    simplify_eq/=; [done|].
  rewrite filter_cons, sum_bool_cons. simpl.
  destruct b; case_decide; try done; simpl; by rewrite IH.
Qed.

(** The positions a boolean series flags, each once, as many as its sum. *)
Lemma flagged_positions (flags : list bool) :
  ∃ positions : list nat,
    NoDup positions
    ∧ (∀ i, i ∈ positions ↔ flags !! i = Some true)
    ∧ length positions = sum_bool flags.
Proof.
  exists (mask_select (seq 0 (length flags)) flags). split_and!.
  - eapply sublist_NoDup; [apply NoDup_seq|].
    apply mask_select_sublist. by rewrite length_seq.
  - intros i. rewrite mask_select_elem_of. split.
    + intros (j & [-> _]%lookup_seq & Hj). done.
    + intros Hi. exists i. split; [|done]. apply lookup_seq.
      apply lookup_lt_Some in Hi. lia.
  - apply mask_select_length. by rewrite length_seq.
Qed.

Lemma existsb_isnull s : existsb isnull s = true ↔ NA ∈ s.
Proof.
  rewrite existsb_exists, list_elem_of_In. split.
  - intros (c & Hc & Hn). by destruct c.
  - intros Hin. by exists NA.
Qed.

Lemma null_columns_elem_of df c :
  c ∈ null_columns df ↔ ∃ j, columns df !! j = Some c ∧ NA ∈ column_values df j.
Proof.
  unfold null_columns, isnull_any. rewrite mask_select_elem_of.
  split; intros (j & Hj & Hm); exists j; (split; [done|]).
  - change (map ?f ?l) with (f <$> l) in Hm. rewrite list_lookup_fmap in Hm.
    destruct (seq _ _ !! j) as [j'|] eqn:Hseq; [|done].
    apply lookup_seq in Hseq as [-> _]. simpl in Hm. apply existsb_isnull. congruence.
  - change (map ?f ?l) with (f <$> l). rewrite list_lookup_fmap.
    rewrite (proj2 (lookup_seq 0 (length (header df)) j j)).
    + simpl. f_equal. by apply existsb_isnull.
    + apply lookup_lt_Some in Hj. rewrite columns_length in Hj. lia.
Qed.

Lemma null_columns_sublist df : null_columns df `sublist_of` columns df.
Proof.
  apply mask_select_sublist. unfold isnull_any.
  by rewrite length_map, length_seq, columns_length.
Qed.

(** *** Negative scan *)

Lemma select_dtypes_number_elem_of df (p : nat * string) :
  p ∈ select_dtypes_number df ↔ header df !! p.1 = Some (p.2, number).
Proof.
  unfold select_dtypes_number. rewrite list_elem_of_omap. split.
  - intros ([j [c dt]] & (i & y & [= -> ->] & Hi)%elem_of_lookup_imap & Hdt).
    simpl in Hdt. case_decide; [|done]. simplify_eq/=. by destruct y; simplify_eq/=.
  - intros Hp. exists (p.1, (p.2, number)). split.
    + apply elem_of_lookup_imap. eauto.
    + simpl. by destruct p.
Qed.

Lemma select_dtypes_number_sublist_from (h : list (string * dtype)) (k : nat → nat) :
  (omap (λ p : nat * (string * dtype),
           if decide (p.2.2 = number) then Some (p.1, p.2.1) else None)
        (imap (λ i y, (k i, y)) h)).*2 `sublist_of` h.*1.
Proof.
  revert k. induction h as [|[c dt] h IH]; intros k; simpl; [done|].
  case_decide; simpl.
  - apply sublist_skip. apply (IH (k ∘ S)).
  - apply sublist_cons. apply (IH (k ∘ S)).
Qed.

Lemma select_dtypes_number_sublist df :
  (select_dtypes_number df).*2 `sublist_of` columns df.
Proof. apply (select_dtypes_number_sublist_from (header df) id). Qed.

Lemma existsb_lt_zero s :
  existsb lt_zero s = true ↔ ∃ x, Num x ∈ s ∧ num_ltb x num_zero = true.
Proof.
  rewrite existsb_exists. setoid_rewrite list_elem_of_In. split.
  - intros (c & Hc & Hn). destruct c; try done. eauto.
  - intros (x & Hx & Hn). by exists (Num x).
Qed.

Lemma negative_columns_elem_of df c :
  c ∈ negative_columns df
  ↔ ∃ j, header df !! j = Some (c, number)
         ∧ ∃ x, Num x ∈ column_values df j ∧ num_ltb x num_zero = true.
Proof.
  unfold negative_columns. rewrite list_elem_of_fmap. split.
  - intros ([j c'] & -> & [Hneg Hsel]%list_elem_of_filter). simpl in *.
    apply select_dtypes_number_elem_of in Hsel. apply existsb_lt_zero in Hneg. eauto.
  - intros (j & Hj & Hneg). exists (j, c). split; [done|].
    apply list_elem_of_filter. split.
    + by apply existsb_lt_zero.
    + by apply select_dtypes_number_elem_of.
Qed.

Lemma negative_columns_sublist df : negative_columns df `sublist_of` columns df.
Proof.
  unfold negative_columns. etrans; [|apply select_dtypes_number_sublist].
  apply fmap_sublist, sublist_filter.
Qed.

End FrameFacts.
(** ** The checks of the script *)

Lemma explain_dup_status check n :
  check = "duplicates" ∨ check = "pk_duplicates" →
  ∃ e, explain check (dup_status n) = inr e.
Proof.
  unfold dup_status. intros [-> | ->]; destruct (n =? 0); eexists; vm_compute; reflexivity.
Qed.

Lemma explain_join_risk ratio : ∃ e, explain "join_risk" (join_risk ratio) = inr e.
Proof.
  unfold join_risk. repeat case_match; eexists; vm_compute; reflexivity.
Qed.

Lemma explain_agg_status {num} `{!Numeric num} (diff : num) :
  ∃ e, explain "aggregation" (agg_status_of diff) = inr e.
Proof.
  unfold agg_status_of. case_match; eexists; vm_compute; reflexivity.
Qed.

Lemma explain_inl check severity e :
  explain check severity = inl e → is_LookupError e = true.
Proof.
  rewrite explain_unfold. repeat case_match; intros [= <-]; done.
Qed.

(** The guarded division never raises. *)
Lemma duplication_ratio_inr total unique_keys :
  duplication_ratio total unique_keys =
  inr (if 0 <? unique_keys
       then Some (Py.round2 (Py.of_ratio (Z.of_nat total) (Z.of_nat unique_keys)))
       else None).
Proof.
  unfold duplication_ratio, Py.truediv.
  destruct (Nat.ltb_spec 0 unique_keys) as [Hpos|]; [|done].
  destruct (Z.eqb_spec (Z.of_nat unique_keys) 0) as [|_]; [lia|]. done.
Qed.

Section ScriptFacts.
Context {num : Type} `{!Numeric num}.
Implicit Types (df : DataFrame num).

(** With the four selections among the columns, the checks run through and
    bind these values. *)
Lemma checks_inr df primary_key quantity_col price_col revenue_col key qty price revenue :
  getitem df primary_key = inr key →
  getitem df quantity_col = inr qty →
  getitem df price_col = inr price →
  getitem df revenue_col = inr revenue →
  let ratio :=
    if 0 <? nunique key
    then Some (Py.round2 (Py.of_ratio (Z.of_nat (length (rows df)))
                                      (Z.of_nat (nunique key))))
    else None in
  checks df primary_key quantity_col price_col revenue_col =
  inr {| v_total_rows := length (rows df);
         v_duplicate_count := duplicate_count df;
         v_dup_status := dup_status (duplicate_count df);
         v_pk_duplicate_count := pk_duplicate_count key;
         v_pk_status := dup_status (pk_duplicate_count key);
         v_unique_keys := nunique key;
         v_duplication_ratio := ratio;
         v_join_risk_status := join_risk <$> ratio;
         v_null_columns := null_columns df;
         v_negative_columns := negative_columns df;
         v_agg_status :=
           agg_status_of
             (agg_diff (to_numeric qty) (to_numeric price) (to_numeric revenue)) |}.
Proof.
  intros Hkey Hqty Hprice Hrevenue ratio. unfold checks.
  destruct (explain_dup_status "duplicates" (duplicate_count df)) as [e1 ->]; [by left|].
  cbn [bind]. rewrite Hkey. cbn [bind].
  destruct (explain_dup_status "pk_duplicates" (pk_duplicate_count key)) as [e2 ->];
    [by right|].
  cbn [bind]. rewrite duplication_ratio_inr. cbn [bind shape fst]. fold ratio.
  destruct (explain_agg_status
    (agg_diff (to_numeric qty) (to_numeric price) (to_numeric revenue))) as [e4 He4].
  destruct ratio as [r|]; cbn [bind fmap option_fmap option_map].
  - destruct (explain_join_risk r) as [e3 ->]. cbn [bind].
    rewrite Hqty, Hprice, Hrevenue. cbn [bind]. rewrite He4. done.
  - rewrite Hqty, Hprice, Hrevenue. cbn [bind]. rewrite He4. done.
Qed.

(** A run of the checks that binds its variables got its four columns. *)
Lemma checks_inr_inv df primary_key quantity_col price_col revenue_col v :
  checks df primary_key quantity_col price_col revenue_col = inr v →
  ∃ key qty price revenue,
    getitem df primary_key = inr key
    ∧ getitem df quantity_col = inr qty
    ∧ getitem df price_col = inr price
    ∧ getitem df revenue_col = inr revenue.
Proof.
  unfold checks.
  destruct (explain "duplicates" _); cbn [bind]; [done|].
  destruct (getitem df primary_key) as [|key]; cbn [bind]; [done|].
  destruct (explain "pk_duplicates" _); cbn [bind]; [done|].
  rewrite duplication_ratio_inr. cbn [bind].
  match goal with |- bind ?m _ = _ → _ => destruct m end; cbn [bind]; [done|].
  destruct (getitem df quantity_col) as [|qty]; cbn [bind]; [done|].
  destruct (getitem df price_col) as [|price]; cbn [bind]; [done|].
  destruct (getitem df revenue_col) as [|revenue]; cbn [bind]; [done|].
  intros _. by exists key, qty, price, revenue.
Qed.

(** The only exception the checks can end with is a failed lookup. *)
Lemma checks_inl df primary_key quantity_col price_col revenue_col e :
  checks df primary_key quantity_col price_col revenue_col = inl e →
  is_LookupError e = true.
Proof.
  assert (∀ c e', getitem df c = inl e' → is_LookupError e' = true) as Hget.
  { intros c e'. unfold getitem. case_match; [by case_match|]. by intros [= <-]. }
  unfold checks.
  destruct (explain "duplicates" _) eqn:H1; cbn [bind];
    [intros [= <-]; by eapply explain_inl|].
  destruct (getitem df primary_key) as [|key] eqn:H2; cbn [bind];
    [intros [= <-]; by eapply Hget|].
  destruct (explain "pk_duplicates" _) eqn:H3; cbn [bind];
    [intros [= <-]; by eapply explain_inl|].
  rewrite duplication_ratio_inr. cbn [bind].
  match goal with |- bind ?m _ = _ → _ => destruct m eqn:H4 end; cbn [bind].
  { intros [= <-]. case_match; [|done].
    destruct (explain "join_risk" _) eqn:H5; cbn [bind] in H4; [|done].
    injection H4 as <-. by eapply explain_inl. }
  destruct (getitem df quantity_col) as [|qty] eqn:H6; cbn [bind];
    [intros [= <-]; by eapply Hget|].
  destruct (getitem df price_col) as [|price] eqn:H7; cbn [bind];
    [intros [= <-]; by eapply Hget|].
  destruct (getitem df revenue_col) as [|revenue] eqn:H8; cbn [bind];
    [intros [= <-]; by eapply Hget|].
  destruct (explain "aggregation" _) eqn:H9; cbn [bind]; [|done].
  intros [= <-]. by eapply explain_inl.
Qed.

(** *** Sums skip what is missing *)



End ScriptFacts.

(** ** More on frames and the checks *)

Section MoreFrameFacts.
Context {num : Type} `{!Numeric num}.
Implicit Types (df : DataFrame num) (s key : list (cell num)).

Lemma getitem_not_elem_of df c : c ∉ columns df → getitem df c = inl (KeyError c).
Proof.
  intros Hc. unfold getitem.
  destruct (list_find _ _) as [[j x]|] eqn:Hfind; [|done].
  apply list_find_Some in Hfind as (Hj & -> & _).
  exfalso. apply Hc, list_elem_of_lookup. eauto.
Qed.




(** The missing value is at most one of the distinct values. *)
Lemma unique_length_nunique key :
  length (unique key) = nunique key + (if decide (NA ∈ key) then 1 else 0).
Proof.
  unfold nunique. pose proof (unique_NoDup key) as Hnd.
  assert (∀ c, c ∈ unique key ↔ c ∈ key) as Helem by (intros; apply unique_elem_of).
  case_decide as Hna.
  - apply Helem in Hna. revert Hnd Hna. generalize (unique key). clear.
    induction l as [|c l IH]; intros Hnd Hna; [by apply elem_of_nil in Hna|].
    apply NoDup_cons in Hnd as [Hc Hnd]. rewrite filter_cons.
    apply elem_of_cons in Hna as [<-|Hna].
    + rewrite decide_False by done. cbn [length].
      assert (filter (λ c : cell num, isnull c = false) l = l) as ->; [|lia].
      clear -Hc. induction l as [|c l IH]; [done|].
      rewrite filter_cons. apply not_elem_of_cons in Hc as [Hne Hc].
      rewrite decide_True by (by destruct c). by rewrite IH.
    + specialize (IH Hnd Hna). case_decide as Hnull; cbn [length]; [lia|].
      exfalso. apply Hc. destruct c; try done.
  - assert (NA ∉ unique key) as Hna' by (by rewrite Helem).
    revert Hna'. generalize (unique key). clear.
    induction l as [|c l IH]; intros Hna; [done|].
    apply not_elem_of_cons in Hna as [Hne Hna]. rewrite filter_cons.
    rewrite decide_True by (by destruct c). cbn [length]. specialize (IH Hna). lia.
Qed.

(** *** Row order *)

Lemma sum_duplicated_Permutation {A} `{!EqDecision A} (l k : list A) :
  l ≡ₚ k → sum_bool (duplicated l) = sum_bool (duplicated k).
Proof.
  intros Hlk. pose proof (sum_duplicated l) as Hl. pose proof (sum_duplicated k) as Hk.
  rewrite (unique_length_same_elements l k) in Hl by (intros x; by rewrite Hlk).
  apply Permutation_length in Hlk. lia.
Qed.

Lemma nunique_Permutation key key' : key ≡ₚ key' → nunique key = nunique key'.
Proof.
  intros Hperm. apply nunique_distinct.
  - apply NoDup_filter, unique_NoDup.
  - intros c. rewrite list_elem_of_filter, unique_elem_of, Hperm.
    destruct c; simpl; naive_solver.
Qed.

Lemma column_values_Permutation (h : list (string * dtype)) (rows1 rows2 : list (list (cell num))) j :
  rows1 ≡ₚ rows2 →
  column_values (mkDataFrame h rows1) j ≡ₚ column_values (mkDataFrame h rows2) j.
Proof.
  intros Hperm. unfold column_values. simpl.
  change (map ?f ?l) with (f <$> l). by rewrite Hperm.
Qed.

Lemma existsb_Permutation {A} (f : A → bool) (l k : list A) :
  l ≡ₚ k → existsb f l = existsb f k.
Proof.
  intros Hperm. apply eq_true_iff_eq. rewrite !existsb_exists.
  by setoid_rewrite <- list_elem_of_In; setoid_rewrite Hperm.
Qed.

Lemma null_columns_Permutation (h : list (string * dtype)) (rows1 rows2 : list (list (cell num))) :
  rows1 ≡ₚ rows2 →
  null_columns (mkDataFrame h rows1) = null_columns (mkDataFrame h rows2).
Proof.
  intros Hperm. unfold null_columns, isnull_any, columns. simpl. f_equal.
  apply map_ext. intros j. by apply existsb_Permutation, column_values_Permutation.
Qed.

Lemma negative_columns_Permutation (h : list (string * dtype)) (rows1 rows2 : list (list (cell num))) :
  rows1 ≡ₚ rows2 →
  negative_columns (mkDataFrame h rows1) = negative_columns (mkDataFrame h rows2).
Proof.
  intros Hperm. unfold negative_columns, select_dtypes_number. simpl. f_equal.
  apply list_filter_iff. intros p.
  by rewrite (existsb_Permutation _ _ _ (column_values_Permutation h _ _ p.1 Hperm)).
Qed.

Lemma getitem_Permutation (h : list (string * dtype)) (rows1 rows2 : list (list (cell num))) c key :
  rows1 ≡ₚ rows2 →
  getitem (mkDataFrame h rows1) c = inr key →
  ∃ key', getitem (mkDataFrame h rows2) c = inr key' ∧ key ≡ₚ key'.
Proof.
  intros Hperm. unfold getitem, columns. simpl.
  destruct (list_find _ _) as [[j x]|]; [|done]. intros [= <-].
  eexists. split; [done|]. by apply column_values_Permutation.
Qed.

End MoreFrameFacts.

Section MoreScriptFacts.
Context {num : Type} `{!Numeric num}.
Implicit Types (df : DataFrame num).

(** The checks end with the exception of the first column access that
    fails. *)
Lemma checks_first_failure df primary_key quantity_col price_col revenue_col e :
  getitem df primary_key = inl e
  ∨ (∃ key, getitem df primary_key = inr key
       ∧ (getitem df quantity_col = inl e
          ∨ ∃ qty, getitem df quantity_col = inr qty
              ∧ (getitem df price_col = inl e
                 ∨ ∃ price, getitem df price_col = inr price
                     ∧ getitem df revenue_col = inl e))) →
  checks df primary_key quantity_col price_col revenue_col = inl e.
Proof.
  intros Hfail. unfold checks.
  destruct (explain_dup_status "duplicates" (duplicate_count df)) as [e1 ->]; [by left|].
  cbn [bind].
  destruct Hfail as [->|(key & -> & Hfail)]; [done|]. cbn [bind].
  destruct (explain_dup_status "pk_duplicates" (pk_duplicate_count key)) as [e2 ->];
    [by right|].
  cbn [bind]. rewrite duplication_ratio_inr. cbn [bind].
  assert (∃ risk,
    match (if 0 <? nunique key
           then Some (Py.round2 (Py.of_ratio (Z.of_nat (shape df).1)
                                             (Z.of_nat (nunique key))))
           else None) with
    | Some r => let* _ := explain "join_risk" (join_risk r) in inr (Some (join_risk r))
    | None => inr None
    end = inr risk) as [risk ->].
  { case_match; [|by eexists].
    destruct (explain_join_risk f) as [e3 ->]. by eexists. }
  cbn [bind].
  destruct Hfail as [->|(qty & -> & Hfail)]; [done|]. cbn [bind].
  destruct Hfail as [->|(price & -> & ->)]; done.
Qed.

End MoreScriptFacts.

(** ** More on ratios *)

Local Open Scope Z_scope.

(** A count divided by itself is exactly [1.0]. *)
Lemma of_ratio_diag n : 0 < n → Py.of_ratio n n = Py.mkfloat (2 ^ 52) (-52).
Proof.
  intros Hn. unfold Py.of_ratio, Py.binexp.
  destruct (Z.eqb_spec n 0) as [|_]; [lia|].
  rewrite Z.sub_diag. cbv zeta.
  change (0 <=? 0) with true. cbv iota.
  change (2 ^ 0) with 1. rewrite Z.mul_1_r, Z.leb_refl.
  change (0 - 52) with (-52). change (0 <=? -52) with false. cbv iota.
  change (- -52) with 52. f_equal.
  unfold Py.round_half_even. cbv zeta. rewrite (Z.mul_comm n).
  rewrite Z.div_mul, Z.mod_mul by lia.
  destruct (Z.ltb_spec (2 * 0) n); [done|lia].
Qed.

(** The ratio of the script for counts in the range of the rounding lemma:
    it is the double of [r] hundredths, [r] nearest to the exact quotient,
    and the severity is read off [r]. *)
Lemma duplication_ratio_hundredths (total_rows unique_keys : nat) :
  (0 < unique_keys)%nat → (unique_keys ≤ total_rows)%nat →
  Z.of_nat total_rows < 2 ^ 45 →
  ∃ r : Z,
    duplication_ratio total_rows unique_keys = inr (Some (Py.of_ratio r 100))
    ∧ - Z.of_nat unique_keys
        ≤ 2 * (r * Z.of_nat unique_keys - 100 * Z.of_nat total_rows)
        ≤ Z.of_nat unique_keys
    ∧ join_risk (Py.of_ratio r 100) =
      (if r <=? 105 then "LOW" else if r <=? 200 then "MEDIUM" else "HIGH").
Proof.
  intros Hpos Hle Hrows. rewrite duplication_ratio_inr.
  destruct (Nat.ltb_spec 0 unique_keys) as [_|]; [|lia].
  destruct (hundredths_of_ratio_nearest (Z.of_nat total_rows) (Z.of_nat unique_keys))
    as [Hr Hnear]; [lia..|].
  set (r := Py.hundredths (Py.of_ratio (Z.of_nat total_rows) (Z.of_nat unique_keys))) in *.
  destruct (thresholds r Hr) as [Hlow Hmedium]; [nia|].
  exists r. split; [done|]. split; [lia|].
  unfold join_risk. by rewrite Hlow, Hmedium.
Qed.

Local Close Scope Z_scope.

(** ** The four ways the handler ends *)


(** ** Joining names, adding up series *)

Lemma concat_cons_cons (sep x y : string) (l : list string) :
  String.concat sep (x :: y :: l) = x +:+ sep +:+ String.concat sep (y :: l).
Proof. reflexivity. Qed.

(** Two neighbours and the one name that reads like both join alike. *)
Lemma concat_merge (sep : string) (l1 l2 : list string) (a b : string) :
  String.concat sep (l1 ++ a :: b :: l2)
  = String.concat sep (l1 ++ (a +:+ sep +:+ b) :: l2).
Proof.
  induction l1 as [|x l1 IH].
  - cbn [app]. rewrite concat_cons_cons. destruct l2 as [|c l2]; [done|].
    rewrite !concat_cons_cons, !append_assoc. done.
  - destruct l1 as [|y l1]; cbn [app] in *.
    + rewrite (concat_cons_cons sep x a), (concat_cons_cons sep x (a +:+ sep +:+ b)).
      by rewrite IH.
    + rewrite !(concat_cons_cons sep x y). by rewrite IH.
Qed.

Section MoreSums.
Context {num : Type} `{!Numeric num}.




Lemma series_sum_all_missing (s : list (option num)) :
  Forall (λ x, x = None) s → series_sum s = num_zero.
Proof.
  intros Hs. unfold series_sum.
  assert (omap id s = []) as ->; [|done].
  induction Hs as [|x s -> _ IH]; [done|]. done.
Qed.

Lemma series_mul_all_missing (a b : list (option num)) :
  Forall (λ x, x = None) a ∨ Forall (λ x, x = None) b →
  Forall (λ x, x = None) (series_mul a b).
Proof.
  unfold series_mul. intros Hab. apply Forall_forall. intros z Hz.
  apply elem_of_lookup_zip_with in Hz as (i & x & y & -> & Hx & Hy).
  destruct Hab as [Ha|Hb].
  - rewrite Forall_forall in Ha. rewrite (Ha x); [done|].
    apply list_elem_of_lookup. eauto.
  - rewrite Forall_forall in Hb. rewrite (Hb y); [by destruct x|].
    apply list_elem_of_lookup. eauto.
Qed.

End MoreSums.

(** ** Stripping *)












(** * The claims of the specification *)

Local Open Scope Z_scope.

(** C3. Every (check, severity) pair of the specification's table
    (duplicates and pk_duplicates with PASS or WARNING, aggregation with
    PASS or FAIL, join_risk with LOW, MEDIUM or HIGH) is explained by a
    triple of three non-empty strings; every other pair makes [explain]
    fail with a [LookupError] (the [KeyError] of the failed dict lookup), it
    never returns a default. *)
Theorem explain_enumerated_or_lookup_error (check severity : string) :
  ((check, severity) ∈ enumerated →
     ∃ plain tech action,
       explain check severity = inr (plain, tech, action)
       ∧ plain ≠ "" ∧ tech ≠ "" ∧ action ≠ "")
  ∧ ((check, severity) ∉ enumerated →
     ∃ e, explain check severity = inl e ∧ is_LookupError e = true).
Proof.
  pose proof (explain_cases check severity) as Hcases.
  destruct (explain check severity) as [e|[[plain tech] action]].
  - destruct Hcases as [Hout Hlookup]. split; [done|]. eauto.
  - destruct Hcases as (Hin & ? & ? & ?). split; [|done].
    intros _. by exists plain, tech, action.
Qed.

Lemma explain_enumerated_or_lookup_error_witness :
  (∃ plain tech action,
     explain "join_risk" "HIGH" = inr (plain, tech, action)
     ∧ plain ≠ "" ∧ tech ≠ "" ∧ action ≠ "")
  ∧ (∃ e, explain "join_risk" "PASS" = inl e ∧ is_LookupError e = true).
Proof.
  split.
  - apply (explain_enumerated_or_lookup_error "join_risk" "HIGH").
    unfold enumerated. set_solver.
  - apply (explain_enumerated_or_lookup_error "join_risk" "PASS").
    unfold enumerated. set_solver.
Defined.

(** C10. Whatever the other inputs of the context builder, an empty list of
    null columns is rendered as the whole line
    ["- Columns with nulls: None"], and an empty list of negative columns as
    the whole line ["- Columns with negative values: None"]: the line is
    there, between two newlines, and carries the token [None], not an empty
    string. *)
Theorem context_renders_empty_lists_as_None {num} `{!Numeric num}
    (df : DataFrame num) (dups pk_dups : nat) (nulls negs : list string)
    (agg risk : string) :
  (nulls = [] →
     ∃ before after,
       build_gpt_context df dups pk_dups nulls negs agg risk =
       before +:+ nl +:+ "- Columns with nulls: None" +:+ nl +:+ after)
  ∧ (negs = [] →
     ∃ before after,
       build_gpt_context df dups pk_dups nulls negs agg risk =
       before +:+ nl +:+ "- Columns with negative values: None" +:+ nl +:+ after).
Proof.
  rewrite context_lines. split; intros ->.
  - eexists _, _. reflexivity.
  - match goal with
    | |- ∃ _ _, ?head +:+ nl +:+ ?nulls_line +:+ nl +:+ _ +:+ nl +:+ ?tail = _ =>
        exists (head +:+ nl +:+ nulls_line), tail
    end.
    rewrite !append_assoc. reflexivity.
Qed.

Lemma context_renders_empty_lists_as_None_witness :
  (∃ before after,
     build_gpt_context (sales 16) 0 0 [] ["revenue"] "FAIL" "LOW" =
     before +:+ nl +:+ "- Columns with nulls: None" +:+ nl +:+ after)
  ∧ (∃ before after,
     build_gpt_context (sales 16) 0 0 ["price"] [] "FAIL" "LOW" =
     before +:+ nl +:+ "- Columns with negative values: None" +:+ nl +:+ after).
Proof.
  split.
  - apply (context_renders_empty_lists_as_None (sales 16) 0 0 [] ["revenue"] "FAIL" "LOW").
    reflexivity.
  - apply (context_renders_empty_lists_as_None (sales 16) 0 0 ["price"] [] "FAIL" "LOW").
    reflexivity.
Defined.



Local Close Scope Z_scope.

(** C6. The row-duplicate count is the number of rows that equal, cell for
    cell over all columns, a row above them: the flags of [duplicated()]
    mark exactly those rows, and the count is the number of marked
    positions.  The status is PASS when the count is 0 and WARNING
    otherwise.  Putting one more copy of a row anywhere into a frame without
    duplicates gives count 1 and WARNING. *)
Theorem row_duplicate_check {num} `{!Numeric num} (df : DataFrame num) :
  (∃ positions : list nat,
     NoDup positions
     ∧ (∀ i, i ∈ positions ↔ repeats_earlier (rows df) i)
     ∧ duplicate_count df = length positions)
  ∧ (duplicate_count df = 0 → dup_status (duplicate_count df) = "PASS")
  ∧ (duplicate_count df ≠ 0 → dup_status (duplicate_count df) = "WARNING")
  ∧ (∀ above below row,
       rows df = above ++ below → duplicate_count df = 0 → row ∈ rows df →
       let df' := mkDataFrame (header df) (above ++ row :: below) in
       duplicate_count df' = 1 ∧ dup_status (duplicate_count df') = "WARNING").
Proof.
  split_and!.
  - destruct (flagged_positions (duplicated (rows df))) as (ps & Hnd & Hps & Hlen).
    exists ps. split_and!; [done| |done].
    intros i. rewrite Hps. apply duplicated_lookup.
  - by intros ->.
  - unfold dup_status. by intros ->%Nat.eqb_neq.
  - intros above below row Hrows Hzero Hrow df'.
    assert (duplicate_count df' = 1) as ->; [|done].
    unfold duplicate_count in *. simpl. rewrite Hrows in *.
    apply sum_duplicated_copy; [|done]. by apply sum_duplicated_zero.
Qed.

Lemma row_duplicate_check_witness :
  duplicate_count (mkDataFrame (header (sales 15))
                     ([ [int 2; int 5; int 10] ]
                      ++ [int 3; int 5; int 15] :: [ [int 3; int 5; int 15] ])) = 1
  ∧ dup_status
      (duplicate_count (mkDataFrame (header (sales 15))
                     ([ [int 2; int 5; int 10] ]
                      ++ [int 3; int 5; int 15] :: [ [int 3; int 5; int 15] ])))
    = "WARNING".
Proof.
  apply (row_duplicate_check (sales 15)).
  - reflexivity.
  - vm_compute. reflexivity.
  - apply list_elem_of_In. vm_compute. right. left. reflexivity.
Defined.

(** C7. For the column the user chose as key, the primary-key duplicate
    count is the number of positions whose value already occurs above them
    (each repetition beyond the first occurrence counts once).  The status
    is PASS when the count is 0 and WARNING otherwise.  With as many
    distinct key values as rows the count is 0 and the status PASS;
    overwriting the key of one row with the key of another row then gives
    count 1 and WARNING. *)
Theorem pk_duplicate_check {num} `{!Numeric num} (df : DataFrame num)
    (primary_key : string) (key : list (cell num)) :
  getitem df primary_key = inr key →
  (∃ positions : list nat,
     NoDup positions
     ∧ (∀ i, i ∈ positions ↔ repeats_earlier key i)
     ∧ pk_duplicate_count key = length positions)
  ∧ (pk_duplicate_count key = 0 → dup_status (pk_duplicate_count key) = "PASS")
  ∧ (pk_duplicate_count key ≠ 0 → dup_status (pk_duplicate_count key) = "WARNING")
  ∧ (nunique key = length (rows df) →
       pk_duplicate_count key = 0
       ∧ dup_status (pk_duplicate_count key) = "PASS"
       ∧ ∀ i j c, i ≠ j → key !! i = Some c → j < length key →
           pk_duplicate_count (<[j:=c]> key) = 1
           ∧ dup_status (pk_duplicate_count (<[j:=c]> key)) = "WARNING").
Proof.
  intros Hkey. split_and!.
  - destruct (flagged_positions (duplicated key)) as (ps & Hnd & Hps & Hlen).
    exists ps. split_and!; [done| |done].
    intros i. rewrite Hps. apply duplicated_lookup.
  - by intros ->.
  - unfold dup_status. by intros ->%Nat.eqb_neq.
  - intros Hfull. rewrite <- (getitem_length _ _ _ Hkey) in Hfull.
    apply nunique_full in Hfull. unfold pk_duplicate_count. rewrite Hfull.
    split_and!; [done..|]. intros i j c Hij Hi Hj.
    rewrite (sum_duplicated_collapse key i j c); [done| |done..].
    by apply sum_duplicated_zero.
Qed.

Lemma pk_duplicate_check_witness :
  pk_duplicate_count [int 2; int 3] = 0
  ∧ dup_status (pk_duplicate_count [int 2; int 3]) = "PASS"
  ∧ pk_duplicate_count (<[1:=int 2]> [int 2; int 3]) = 1
  ∧ dup_status (pk_duplicate_count (<[1:=int 2]> [int 2; int 3])) = "WARNING".
Proof.
  destruct (pk_duplicate_check (sales 16) "quantity" [int 2; int 3] eq_refl)
    as (_ & _ & _ & Hfull).
  destruct (Hfull eq_refl) as (Hzero & Hpass & Hcollapse).
  split_and!; [exact Hzero|exact Hpass|..];
    apply (Hcollapse 0 1 (int 2)); (lia || reflexivity || (simpl; lia)).
Defined.

(** C8. The null-column scan returns exactly the names of the columns that
    contain at least one missing value, in the order of the columns of the
    frame.  When ["B"] is the only column with a missing value the result
    is [["B"]]; when no column has one the result is the empty list. *)
Theorem null_column_scan {num} `{!Numeric num} (df : DataFrame num) :
  (∀ c, c ∈ null_columns df
        ↔ ∃ j, columns df !! j = Some c ∧ NA ∈ column_values df j)
  ∧ null_columns df `sublist_of` columns df
  ∧ (NoDup (columns df) →
     (∀ j c, columns df !! j = Some c → (NA ∈ column_values df j ↔ c = "B")) →
     "B" ∈ columns df →
     null_columns df = ["B"])
  ∧ ((∀ j, j < length (columns df) → NA ∉ column_values df j) →
     null_columns df = []).
Proof.
  split_and!.
  - apply null_columns_elem_of.
  - apply null_columns_sublist.
  - intros Hnd Honly HB. apply singleton_of_NoDup.
    + eapply sublist_NoDup; [exact Hnd|apply null_columns_sublist].
    + intros c. rewrite null_columns_elem_of. split.
      * intros (j & Hj & Hna). by apply (Honly j c Hj).
      * intros ->. apply list_elem_of_lookup in HB as [j Hj].
        exists j. split; [done|]. by apply (Honly j "B" Hj).
  - intros Hnone. destruct (null_columns df) as [|c l] eqn:Hnulls; [done|].
    exfalso. assert (c ∈ null_columns df) as Hc by (rewrite Hnulls; left).
    apply null_columns_elem_of in Hc as (j & Hj & Hna).
    apply (Hnone j); [|done]. by apply lookup_lt_Some in Hj.
Qed.

Lemma null_column_scan_witness :
  null_columns gap_in_B = ["B"] ∧ null_columns (sales 16) = [].
Proof.
  split.
  - apply (null_column_scan gap_in_B).
    + compute_done.
    + intros [|[|[|j]]] c Hc; vm_compute in Hc; simplify_eq.
      * split; [|done]. intros Hna. exfalso. revert Hna. compute_done.
      * split; [done|]. intros _. compute_done.
      * split; [|done]. intros Hna. exfalso. revert Hna. compute_done.
    + compute_done.
  - apply (null_column_scan (sales 16)).
    intros [|[|[|j]]] Hj; [compute_done..|]. vm_compute in Hj. lia.
Defined.

(** C9. The negative-value scan returns exactly the names of the
    numeric-typed columns that contain at least one value below zero, in
    the order of the columns of the frame.  A column of another dtype is
    never in the result, whatever its cells are: text that reads like a
    negative number is not looked at. *)
Theorem negative_value_scan {num} `{!Numeric num} (df : DataFrame num) :
  (∀ c, c ∈ negative_columns df
        ↔ ∃ j, header df !! j = Some (c, number)
               ∧ ∃ x, Num x ∈ column_values df j ∧ num_ltb x num_zero = true)
  ∧ negative_columns df `sublist_of` columns df
  ∧ (NoDup (columns df) →
     ∀ j c dt, header df !! j = Some (c, dt) → dt ≠ number →
       c ∉ negative_columns df).
Proof.
  split_and!.
  - apply negative_columns_elem_of.
  - apply negative_columns_sublist.
  - intros Hnd j c dt Hj Hdt (j' & Hj' & _)%negative_columns_elem_of.
    assert (columns df !! j = Some c) as Hc.
    { unfold columns. by rewrite list_lookup_fmap, Hj. }
    assert (columns df !! j' = Some c) as Hc'.
    { unfold columns. by rewrite list_lookup_fmap, Hj'. }
    rewrite (NoDup_lookup _ _ _ _ Hnd Hc Hc') in Hj. congruence.
Qed.

Lemma negative_value_scan_witness :
  negative_columns ledger = ["delta"] ∧ "note" ∉ negative_columns ledger.
Proof.
  split; [reflexivity|].
  apply (negative_value_scan ledger) with (j := 1) (dt := object);
    [compute_done|reflexivity|done].
Defined.



Local Open Scope Z_scope.

(** C1. The key column's distinct count is the number of distinct values
    that are not missing.  When it is 0 the ratio is [None] and nothing is
    divided; the checks never end in a division error.  When it is positive,
    the ratio is [total_rows / distinct] rounded to two decimals: the double
    nearest to [r / 100], where [r / 100] is a two-decimal number nearest to
    the exact quotient (within 0.005 of it; a quotient exactly halfway
    between two such numbers goes to the one its binary64 value is nearer
    to).  This is for frames of fewer than [2^45] rows, the range in which
    doubles tell hundredths of the quotient apart.  The severity is LOW when
    the ratio is at most 1.05 ([r <= 105]), MEDIUM when it is above 1.05 and
    at most 2 ([105 < r <= 200]), HIGH when it is above 2. *)
Theorem join_inflation_ratio_and_severity {num} `{!Numeric num}
    (df : DataFrame num)
    (primary_key quantity_col price_col revenue_col : string) :
  checks df primary_key quantity_col price_col revenue_col ≠ inl ZeroDivisionError
  ∧ ∀ v, checks df primary_key quantity_col price_col revenue_col = inr v →
      v_total_rows v = length (rows df)
      ∧ (∃ key, getitem df primary_key = inr key
           ∧ v_unique_keys v = nunique key
           ∧ ∀ distinct, NoDup distinct →
               (∀ c, c ∈ distinct ↔ c ∈ key ∧ c ≠ NA) →
               length distinct = v_unique_keys v)
      ∧ (v_unique_keys v = 0%nat → v_duplication_ratio v = None)
      ∧ ((0 < v_unique_keys v)%nat → Z.of_nat (v_total_rows v) < 2 ^ 45 →
           ∃ r : Z,
             v_duplication_ratio v = Some (Py.of_ratio r 100)
             ∧ nearest_hundredths r (v_total_rows v) (v_unique_keys v)
             ∧ v_join_risk_status v =
               Some (if r <=? 105 then "LOW"
                     else if r <=? 200 then "MEDIUM"
                     else "HIGH")).
Proof.
  split.
  { intros Hraise. by apply checks_inl in Hraise. }
  intros v Hv.
  destruct (checks_inr_inv _ _ _ _ _ _ Hv)
    as (key & qty & price & revenue & Hkey & Hqty & Hprice & Hrevenue).
  rewrite (checks_inr _ _ _ _ _ _ _ _ _ Hkey Hqty Hprice Hrevenue) in Hv.
  injection Hv as <-. cbn [v_total_rows v_unique_keys v_duplication_ratio v_join_risk_status].
  split_and!.
  - done.
  - exists key. split_and!; [done..|]. intros distinct. apply nunique_distinct.
  - by intros ->.
  - intros Hpos Hrows.
    pose proof (nunique_le key) as Hle. rewrite (getitem_length _ _ _ Hkey) in Hle.
    destruct (Nat.ltb_spec 0 (nunique key)) as [_|]; [|lia].
    set (total_rows := Z.of_nat (length (rows df))) in *.
    set (unique_keys := Z.of_nat (nunique key)).
    destruct (hundredths_of_ratio_nearest total_rows unique_keys) as [Hr Hnear];
      [lia..|].
    set (r := Py.hundredths (Py.of_ratio total_rows unique_keys)) in *.
    destruct (thresholds r Hr) as [Hlow Hmedium]; [nia|].
    exists r. split_and!.
    + done.
    + unfold nearest_hundredths. fold total_rows unique_keys. lia.
    + cbn [fmap option_fmap option_map]. unfold Py.round2, join_risk. fold r.
      by rewrite Hlow, Hmedium.
Qed.

Lemma join_inflation_ratio_and_severity_witness :
  ∃ r : Z,
    Some (Py.mkfloat 6755399441055744 (-51)) = Some (Py.of_ratio r 100)
    ∧ nearest_hundredths r 3 1
    ∧ Some "HIGH" =
      Some (if r <=? 105 then "LOW" else if r <=? 200 then "MEDIUM" else "HIGH").
Proof.
  destruct (join_inflation_ratio_and_severity
              sales_as_text "price" "quantity" "price" "revenue") as [_ Hvars].
  destruct (Hvars (mkVariables 3 0 "PASS" 2 "WARNING" 1
                     (Some (Py.mkfloat 6755399441055744 (-51))) (Some "HIGH")
                     [] [] "PASS")) as (_ & _ & _ & Hratio).
  - vm_compute. reflexivity.
  - apply Hratio; [simpl; lia|reflexivity].
Defined.

Local Close Scope Z_scope.

(** C5. There is a frame with rows whose chosen key column is missing in
    every row.  For every such frame the distinct-key count is 0 (missing
    values are not counted), the join-risk branch is skipped, and the checks
    end with the name [join_risk_status] unassigned.  A question submitted
    then, with a credential and a question that is not blank, ends in
    [NameError] on that name: no context string is built and no request is
    sent. *)
Theorem unbound_join_risk_status :
  (∀ {num} `{!Numeric num} (service : request → string) (df : DataFrame num)
     (primary_key quantity_col price_col revenue_col : string)
     (key : list (cell num)) (api_key : option string) (user_question : string),
     getitem df primary_key = inr key →
     Forall (λ c, c = NA) key →
     quantity_col ∈ columns df → price_col ∈ columns df → revenue_col ∈ columns df →
     api_key_present api_key → ¬ blank user_question →
     nunique key = 0
     ∧ (∃ v, checks df primary_key quantity_col price_col revenue_col = inr v
             ∧ v_duplication_ratio v = None
             ∧ v_join_risk_status v = None)
     ∧ script service df primary_key quantity_col price_col revenue_col
              api_key user_question true
       = ([], Some (NameError "join_risk_status")))
  ∧ (∃ key, getitem no_refs "ref" = inr key
            ∧ key ≠ [] ∧ rows no_refs ≠ []
            ∧ Forall (λ c, c = NA) key).
Proof.
  split.
  - intros num ? service df primary_key quantity_col price_col revenue_col
      key api_key user_question Hkey Hmissing Hq Hp Hr Hcred Hquestion.
    destruct (getitem_elem_of df _ Hq) as [qty Hqty].
    destruct (getitem_elem_of df _ Hp) as [price Hprice].
    destruct (getitem_elem_of df _ Hr) as [revenue Hrevenue].
    pose proof (nunique_all_missing key Hmissing) as Hzero.
    pose proof (checks_inr df _ _ _ _ _ _ _ _ Hkey Hqty Hprice Hrevenue) as Hchecks.
    rewrite Hzero in Hchecks. cbn [Nat.ltb Nat.leb fmap option_fmap option_map] in Hchecks.
    split_and!; [done|eauto|].
    unfold script. rewrite Hchecks. unfold ask. cbn [v_join_risk_status].
    destruct Hcred as (k & -> & Hk).
    destruct k as [|c k]; [done|]. cbn [truthy].
    destruct (truthy (strip user_question)) eqn:Hstrip; [done|].
    exfalso. apply Hquestion, strip_empty. by apply truthy_false.
  - exists [NA; NA]. split_and!; [reflexivity|done|done|repeat constructor].
Qed.

Lemma unbound_join_risk_status_witness :
  nunique [NA (num:=Qc); NA] = 0
  ∧ script echo_service no_refs "ref" "id" "id" "id"
      (Some "sk-test") "Is the key unique?" true
    = ([], Some (NameError "join_risk_status")).
Proof.
  destruct unbound_join_risk_status as [Hgeneral _].
  destruct (Hgeneral Qc _ echo_service no_refs "ref" "id" "id" "id"
              [NA; NA] (Some "sk-test") "Is the key unique?")
    as (Hzero & _ & Hscript).
  - reflexivity.
  - repeat constructor.
  - compute_done.
  - compute_done.
  - compute_done.
  - exists "sk-test". done.
  - unfold blank. simpl. intros Hblank. apply Forall_cons in Hblank as [Hc _].
    vm_compute in Hc. discriminate.
  - split; [exact Hzero|exact Hscript].
Defined.

(** * Further properties of the script *)

(** ** Credential resolution *)

(** X1. A credential counts as configured exactly when the secrets file
    holds a non-empty [OPENAI_API_KEY], or holds none (or cannot be read)
    and the environment variable is non-empty.  A secret that is there
    always wins: an empty secret hides a key from the environment, and the
    handler then reports the missing key without sending anything. *)
Theorem credential_resolution {num} `{!Numeric num} (service : request → string)
    (st_secrets : option (gmap string string)) (environ : gmap string string)
    (df : DataFrame num) (v : variables) (user_question : string) :
  let secret := st_secrets ≫= (λ secrets, secrets !! "OPENAI_API_KEY") in
  let api_key := get_openai_api_key st_secrets environ in
  (api_key_present api_key
   ↔ (∃ value, secret = Some value ∧ value ≠ "")
     ∨ (secret = None ∧ ∃ value, environ !! "OPENAI_API_KEY" = Some value ∧ value ≠ ""))
  ∧ (∀ value, secret = Some value → api_key = Some value)
  ∧ (secret = Some "" →
     ask service df v api_key user_question = ([st_error key_not_found], None)).
Proof.
  unfold get_openai_api_key, try_secrets, os_getenv, api_key_present.
  destruct st_secrets as [secrets|]; simpl.
  - destruct (secrets !! "OPENAI_API_KEY") as [value|] eqn:Hsecret; simpl.
    + split_and!; [naive_solver|naive_solver|]. by intros [= ->].
    + split_and!; [naive_solver|done|done].
  - split_and!; [naive_solver|done|done].
Qed.

Lemma credential_resolution_witness :
  get_openai_api_key (Some {[ "OPENAI_API_KEY" := "" ]})
                     {[ "OPENAI_API_KEY" := "sk-env" ]} = Some ""
  ∧ ask echo_service (sales 16)
        (mkVariables 2 0 "PASS" 0 "PASS" 2 None (Some "LOW") [] [] "FAIL")
        (get_openai_api_key (Some {[ "OPENAI_API_KEY" := "" ]})
                            {[ "OPENAI_API_KEY" := "sk-env" ]})
        "Why does it fail?"
    = ([st_error key_not_found], None).
Proof.
  destruct (credential_resolution echo_service
              (Some {[ "OPENAI_API_KEY" := "" ]}) {[ "OPENAI_API_KEY" := "sk-env" ]}
              (sales 16)
              (mkVariables 2 0 "PASS" 0 "PASS" 2 None (Some "LOW") [] [] "FAIL")
              "Why does it fail?") as (_ & Hwins & Hempty).
  split.
  - apply Hwins. reflexivity.
  - apply Hempty. reflexivity.
Defined.

(** ** Column access and the run of the checks *)



(** X3. With the four selected names among the columns the checks always
    run to the end: every [explain] call of the script is on a pair of the
    catalogue.  Otherwise they stop with the [KeyError] of the first
    selection, in the order primary key, quantity, price, revenue, that is
    not a column. *)
Theorem checks_stop_at_first_missing_column {num} `{!Numeric num} (df : DataFrame num)
    (primary_key quantity_col price_col revenue_col : string) :
  match list_find (λ c, c ∉ columns df)
                  [primary_key; quantity_col; price_col; revenue_col] with
  | Some (_, c) =>
      checks df primary_key quantity_col price_col revenue_col = inl (KeyError c)
  | None => ∃ v, checks df primary_key quantity_col price_col revenue_col = inr v
  end.
Proof.
  cbn [list_find].
  destruct (decide (primary_key ∉ columns df)) as [Hpk|Hpk%dec_stable]; cbn.
  { apply checks_first_failure. left. by apply getitem_not_elem_of. }
  destruct (getitem_elem_of df _ Hpk) as [key Hkey].
  destruct (decide (quantity_col ∉ columns df)) as [Hq|Hq%dec_stable]; cbn.
  { apply checks_first_failure. right. exists key. split; [done|]. left.
    by apply getitem_not_elem_of. }
  destruct (getitem_elem_of df _ Hq) as [qty Hqty].
  destruct (decide (price_col ∉ columns df)) as [Hp|Hp%dec_stable]; cbn.
  { apply checks_first_failure. right. exists key. split; [done|]. right.
    exists qty. split; [done|]. left. by apply getitem_not_elem_of. }
  destruct (getitem_elem_of df _ Hp) as [price Hprice].
  destruct (decide (revenue_col ∉ columns df)) as [Hr|Hr%dec_stable]; cbn.
  { apply checks_first_failure. right. exists key. split; [done|]. right.
    exists qty. split; [done|]. right. exists price. split; [done|].
    by apply getitem_not_elem_of. }
  destruct (getitem_elem_of df _ Hr) as [revenue Hrevenue].
  eexists. by apply (checks_inr df _ _ _ _ key qty price revenue).
Qed.

(** ** What the duplicate counts count *)

(** X4. The row-duplicate count is the number of rows minus the number of
    distinct rows.  It is 0 exactly when no two rows are equal, and it is
    always below the number of rows of a frame that has rows: the first row
    is never a duplicate. *)
Theorem duplicate_count_is_rows_minus_distinct {num} `{!Numeric num} (df : DataFrame num) :
  (∀ distinct : list (list (cell num)),
     NoDup distinct → (∀ row, row ∈ distinct ↔ row ∈ rows df) →
     duplicate_count df + length distinct = length (rows df))
  ∧ (duplicate_count df = 0 ↔ NoDup (rows df))
  ∧ (rows df ≠ [] → duplicate_count df < length (rows df)).
Proof.
  unfold duplicate_count. pose proof (sum_duplicated (rows df)) as Hsum. split_and!.
  - intros distinct Hnd Hrows.
    assert (length distinct = length (unique (rows df))) as ->; [|done].
    apply Permutation_length, NoDup_Permutation; [done|apply unique_NoDup|].
    intros row. by rewrite Hrows, unique_elem_of.
  - apply sum_duplicated_zero.
  - intros Hrows. destruct (rows df) as [|row rest] eqn:Heq; [done|].
    assert (row ∈ unique (row :: rest)) as Hrow by (apply unique_elem_of; left).
    destruct (unique (row :: rest)); [by apply elem_of_nil in Hrow|].
    simpl in *. lia.
Qed.

Lemma duplicate_count_is_rows_minus_distinct_witness :
  duplicate_count ledger + length (rows ledger) = length (rows ledger)
  ∧ duplicate_count ledger < length (rows ledger).
Proof.
  destruct (duplicate_count_is_rows_minus_distinct ledger) as (Hdistinct & _ & Hbelow).
  split.
  - apply (Hdistinct (rows ledger)); [compute_done|done].
  - apply Hbelow. done.
Defined.

(** X5. On the key column, the rows split into the first occurrences of
    the distinct values that are not missing, one first occurrence of the
    missing value when the key has one, and the duplicates:
    [pk_duplicate_count + nunique + (1 if a key is missing) = rows].  So
    the key check is PASS on a key without missing values exactly when
    there are as many distinct keys as rows. *)
Theorem pk_duplicates_nunique_and_rows {num} `{!Numeric num} (df : DataFrame num)
    (primary_key : string) (key : list (cell num)) :
  getitem df primary_key = inr key →
  pk_duplicate_count key + nunique key + (if decide (NA ∈ key) then 1 else 0)
    = length (rows df)
  ∧ (NA ∉ key →
     (dup_status (pk_duplicate_count key) = "PASS" ↔ nunique key = length (rows df))).
Proof.
  intros Hkey. rewrite <- (getitem_length _ _ _ Hkey).
  unfold pk_duplicate_count.
  pose proof (sum_duplicated key) as Hsum.
  pose proof (unique_length_nunique key) as Hunique.
  split; [lia|]. intros Hna. rewrite decide_False in Hunique by done.
  unfold dup_status. destruct (Nat.eqb_spec (sum_bool (duplicated key)) 0); split;
    (done || lia).
Qed.

Lemma pk_duplicates_nunique_and_rows_witness :
  pk_duplicate_count [NA (num:=Qc); NA] + nunique [NA (num:=Qc); NA]
    + (if decide (NA ∈ [NA (num:=Qc); NA]) then 1 else 0)
  = length (rows no_refs).
Proof.
  apply (pk_duplicates_nunique_and_rows no_refs "ref" [NA; NA]). reflexivity.
Defined.

(** X6. The order of the rows does not matter to the findings: a frame
    with the same rows in another order gets the same row count, duplicate
    counts and statuses, distinct-key count, ratio, join risk (bound or
    not), null columns and negative columns.  Only the aggregation status
    is left out: it depends on the order in which the column library adds
    up. *)
Theorem findings_ignore_row_order {num} `{!Numeric num} (df : DataFrame num)
    (reordered : list (list (cell num)))
    (primary_key quantity_col price_col revenue_col : string) (v : variables) :
  rows df ≡ₚ reordered →
  checks df primary_key quantity_col price_col revenue_col = inr v →
  ∃ v',
    checks (mkDataFrame (header df) reordered)
           primary_key quantity_col price_col revenue_col = inr v'
    ∧ v_total_rows v' = v_total_rows v
    ∧ v_duplicate_count v' = v_duplicate_count v
    ∧ v_dup_status v' = v_dup_status v
    ∧ v_pk_duplicate_count v' = v_pk_duplicate_count v
    ∧ v_pk_status v' = v_pk_status v
    ∧ v_unique_keys v' = v_unique_keys v
    ∧ v_duplication_ratio v' = v_duplication_ratio v
    ∧ v_join_risk_status v' = v_join_risk_status v
    ∧ v_null_columns v' = v_null_columns v
    ∧ v_negative_columns v' = v_negative_columns v.
Proof.
  destruct df as [h rows0]. simpl. intros Hperm Hv.
  destruct (checks_inr_inv _ _ _ _ _ _ Hv)
    as (key & qty & price & revenue & Hkey & Hqty & Hprice & Hrevenue).
  rewrite (checks_inr _ _ _ _ _ _ _ _ _ Hkey Hqty Hprice Hrevenue) in Hv.
  injection Hv as <-.
  destruct (getitem_Permutation h _ _ _ _ Hperm Hkey) as (key' & Hkey' & Hk).
  destruct (getitem_Permutation h _ _ _ _ Hperm Hqty) as (qty' & Hqty' & _).
  destruct (getitem_Permutation h _ _ _ _ Hperm Hprice) as (price' & Hprice' & _).
  destruct (getitem_Permutation h _ _ _ _ Hperm Hrevenue) as (revenue' & Hrevenue' & _).
  eexists. split; [by apply (checks_inr _ _ _ _ _ key' qty' price' revenue')|].
  cbn [v_total_rows v_duplicate_count v_dup_status v_pk_duplicate_count v_pk_status
       v_unique_keys v_duplication_ratio v_join_risk_status v_null_columns
       v_negative_columns rows].
  assert (duplicate_count (mkDataFrame h reordered) = duplicate_count (mkDataFrame h rows0))
    as -> by (symmetry; by apply sum_duplicated_Permutation).
  assert (pk_duplicate_count key' = pk_duplicate_count key)
    as -> by (symmetry; by apply sum_duplicated_Permutation).
  rewrite <- (nunique_Permutation key key' Hk).
  rewrite <- (Permutation_length Hperm).
  rewrite <- (null_columns_Permutation h _ _ Hperm).
  rewrite <- (negative_columns_Permutation h _ _ Hperm).
  done.
Qed.

Lemma findings_ignore_row_order_witness :
  ∃ v',
    checks (mkDataFrame (header ledger)
              [ [int 2; Str "-7"; int (-3)]; [int 1; Str "-5"; int 4] ])
           "id" "id" "delta" "delta" = inr v'
    ∧ v_total_rows v' = 2
    ∧ v_duplicate_count v' = 0
    ∧ v_dup_status v' = "PASS"
    ∧ v_pk_duplicate_count v' = 0
    ∧ v_pk_status v' = "PASS"
    ∧ v_unique_keys v' = 2
    ∧ v_duplication_ratio v' = Some (Py.mkfloat 4503599627370496 (-52))
    ∧ v_join_risk_status v' = Some "LOW"
    ∧ v_null_columns v' = []
    ∧ v_negative_columns v' = ["delta"].
Proof.
  apply (findings_ignore_row_order ledger
           [ [int 2; Str "-7"; int (-3)]; [int 1; Str "-5"; int 4] ]
           "id" "id" "delta" "delta"
           (mkVariables 2 0 "PASS" 0 "PASS" 2
              (Some (Py.mkfloat 4503599627370496 (-52))) (Some "LOW")
              [] ["delta"] "FAIL")).
  - apply Permutation_swap.
  - vm_compute. reflexivity.
Defined.

(** ** Join inflation in terms of the two counts *)

Local Open Scope Z_scope.

(** X7. Because the ratio is rounded before it is compared, the bands are
    wider than their labels: for frames below [2^45] rows the severity is
    LOW whenever [total / distinct < 1.055], MEDIUM whenever it lies
    strictly between 1.055 and 2.005, HIGH whenever it is above 2.005.  A
    quotient that is itself a two-decimal number [k / 100] is kept as it
    is, so 1.05 is LOW and 2 is MEDIUM. *)
Theorem join_risk_bands (total_rows unique_keys : nat) :
  (0 < unique_keys)%nat → (unique_keys ≤ total_rows)%nat →
  Z.of_nat total_rows < 2 ^ 45 →
  let t := Z.of_nat total_rows in
  let d := Z.of_nat unique_keys in
  ∃ ratio,
    duplication_ratio total_rows unique_keys = inr (Some ratio)
    ∧ (200 * t < 211 * d → join_risk ratio = "LOW")
    ∧ (211 * d < 200 * t → 200 * t < 401 * d → join_risk ratio = "MEDIUM")
    ∧ (401 * d < 200 * t → join_risk ratio = "HIGH")
    ∧ (∀ k, 100 * t = k * d →
         ratio = Py.of_ratio k 100
         ∧ join_risk ratio =
           (if k <=? 105 then "LOW" else if k <=? 200 then "MEDIUM" else "HIGH")).
Proof.
  intros Hpos Hle Hrows t d.
  destruct (duplication_ratio_hundredths total_rows unique_keys Hpos Hle Hrows)
    as (r & Hratio & Hnear & Hrisk).
  fold t d in Hnear. assert (0 < d) by lia.
  exists (Py.of_ratio r 100). rewrite Hrisk. split_and!; [done|..].
  - intros Hlow. destruct (Z.leb_spec r 105); [done|nia].
  - intros Hlo Hhi. destruct (Z.leb_spec r 105); [nia|].
    destruct (Z.leb_spec r 200); [done|nia].
  - intros Hhigh. destruct (Z.leb_spec r 105); [nia|].
    destruct (Z.leb_spec r 200); [nia|done].
  - intros k Hk. assert (r = k) as -> by nia. done.
Qed.

Lemma join_risk_bands_witness :
  ∃ ratio,
    duplication_ratio 2001 1000 = inr (Some ratio)
    ∧ join_risk ratio = "MEDIUM".
Proof.
  destruct (join_risk_bands 2001 1000) as (ratio & Hratio & _ & Hmedium & _);
    [lia|lia|reflexivity|].
  exists ratio. split; [exact Hratio|]. apply Hmedium; reflexivity.
Defined.

(** X8. A key with as many distinct values as the frame has rows (no
    duplicate, no missing value) gets PASS from the key check, the ratio
    exactly [1.0] and LOW join risk, whatever the size of the frame. *)
Theorem all_keys_distinct_is_low_risk {num} `{!Numeric num} (df : DataFrame num)
    (primary_key quantity_col price_col revenue_col : string) (v : variables) :
  checks df primary_key quantity_col price_col revenue_col = inr v →
  v_unique_keys v = v_total_rows v → (0 < v_total_rows v)%nat →
  v_pk_duplicate_count v = 0%nat
  ∧ v_pk_status v = "PASS"
  ∧ v_duplication_ratio v = Some (Py.mkfloat (2 ^ 52) (-52))
  ∧ v_join_risk_status v = Some "LOW".
Proof.
  intros Hv.
  destruct (checks_inr_inv _ _ _ _ _ _ Hv)
    as (key & qty & price & revenue & Hkey & Hqty & Hprice & Hrevenue).
  rewrite (checks_inr _ _ _ _ _ _ _ _ _ Hkey Hqty Hprice Hrevenue) in Hv.
  injection Hv as <-.
  cbn [v_unique_keys v_total_rows v_pk_duplicate_count v_pk_status
       v_duplication_ratio v_join_risk_status].
  intros Hfull Hrows. rewrite Hfull.
  destruct (Nat.ltb_spec 0 (length (rows df))) as [_|]; [|lia].
  rewrite of_ratio_diag by lia.
  rewrite <- (getitem_length _ _ _ Hkey) in Hfull.
  apply nunique_full in Hfull. unfold pk_duplicate_count. rewrite Hfull.
  done.
Qed.

Lemma all_keys_distinct_is_low_risk_witness :
  Some (Py.mkfloat 4503599627370496 (-52)) = Some (Py.mkfloat (2 ^ 52) (-52))
  ∧ Some "LOW" = Some "LOW".
Proof.
  destruct (all_keys_distinct_is_low_risk (sales 16) "quantity" "quantity" "price" "revenue"
              (mkVariables 2 0 "PASS" 0 "PASS" 2
                 (Some (Py.mkfloat 4503599627370496 (-52))) (Some "LOW") [] [] "FAIL"))
    as (_ & _ & Hratio & Hrisk).
  - vm_compute. reflexivity.
  - reflexivity.
  - simpl. lia.
  - split; [exact Hratio|exact Hrisk].
Defined.

Local Close Scope Z_scope.

(** ** The request and when it is sent *)





(** ** What the context and the catalogue can tell apart *)

(** X11. The context does not determine the column lists it renders: two
    neighbouring names and the single name that reads as both joined by a
    comma and a space give the same context, and so do the empty list and
    the single column called [None]. *)
Theorem context_column_lists_are_ambiguous {num} `{!Numeric num}
    (df : DataFrame num) (dups pk_dups : nat)
    (before after others : list string) (a b : string) (agg risk : string) :
  build_gpt_context df dups pk_dups (before ++ a :: b :: after) others agg risk
  = build_gpt_context df dups pk_dups (before ++ (a +:+ ", " +:+ b) :: after) others agg risk
  ∧ build_gpt_context df dups pk_dups others (before ++ a :: b :: after) agg risk
    = build_gpt_context df dups pk_dups others (before ++ (a +:+ ", " +:+ b) :: after) agg risk
  ∧ build_gpt_context df dups pk_dups [] others agg risk
    = build_gpt_context df dups pk_dups ["None"] others agg risk
  ∧ build_gpt_context df dups pk_dups others [] agg risk
    = build_gpt_context df dups pk_dups others ["None"] agg risk.
Proof.
  assert (render_columns (before ++ a :: b :: after)
          = render_columns (before ++ (a +:+ ", " +:+ b) :: after)) as Hmerge.
  { unfold render_columns. rewrite <- concat_merge.
    by destruct before. }
  rewrite !context_lines, Hmerge. done.
Qed.

(** X12. In the catalogue the recommended action is "No action needed."
    exactly for the severities PASS and LOW, and no two findings share
    their plain-language summary. *)
Theorem catalogue_actions_and_summaries (check severity : string) (e : explanation) :
  explain check severity = inr e →
  (e.2 = "No action needed." ↔ severity = "PASS" ∨ severity = "LOW")
  ∧ ∀ check' severity' e',
      explain check' severity' = inr e' → e.1.1 = e'.1.1 →
      check' = check ∧ severity' = severity.
Proof.
  assert (∀ c s x, explain c s = inr x → (c, s) ∈ enumerated) as Hlisted.
  { intros c s x Hx. pose proof (explain_cases c s) as Hc. rewrite Hx in Hc. tauto. }
  intros He. pose proof (Hlisted _ _ _ He) as Hin.
  unfold enumerated in Hin. rewrite !elem_of_cons, elem_of_nil in Hin.
  split.
  - repeat (destruct Hin as [[= -> ->]|Hin]); try done;
      vm_compute in He; injection He as <-; cbn;
      (split; [intros _; (by left) || (by right)|done])
      || (split; [done|by intros [|]]).
  - intros check' severity' e' He' Heq. pose proof (Hlisted _ _ _ He') as Hin'.
    unfold enumerated in Hin'. rewrite !elem_of_cons, elem_of_nil in Hin'.
    repeat (destruct Hin as [[= -> ->]|Hin]); try done;
      vm_compute in He; injection He as <-;
      repeat (destruct Hin' as [[= -> ->]|Hin']); try done;
      vm_compute in He'; injection He' as <-; done.
Qed.

Lemma catalogue_actions_and_summaries_witness :
  ("Review joins to many-side tables." = "No action needed."
   ↔ "MEDIUM" = "PASS" ∨ "MEDIUM" = "LOW").
Proof.
  apply (catalogue_actions_and_summaries "join_risk" "MEDIUM"
           ("Moderate risk of join inflation.",
            "Some duplication exists at the key level.",
            "Review joins to many-side tables.")).
  reflexivity.
Defined.

(** ** Aggregation when cells do not parse *)



(** X14. When no cell of the revenue column coerces to a number and the
    quantity or the price column has none either, both sums are the empty
    sum and the status is the one of zero against zero, however much the
    columns differ as text. *)
Theorem aggregation_of_text_columns {num} `{!Numeric num}
    (qty price revenue : list (cell num)) :
  Forall (λ c, to_numeric_cell c = None) revenue →
  Forall (λ c, to_numeric_cell c = None) qty
  ∨ Forall (λ c, to_numeric_cell c = None) price →
  agg_status_of (agg_diff (to_numeric qty) (to_numeric price) (to_numeric revenue))
  = agg_status_of (num_sub num_zero num_zero).
Proof.
  intros Hrevenue Hqp. unfold agg_diff.
  assert (∀ s : list (cell num),
    Forall (λ c, to_numeric_cell c = None) s →
    Forall (λ x, x = None) (to_numeric s)) as Hnone.
  { intros s Hs. unfold to_numeric. change (map ?f ?l) with (f <$> l).
    by apply Forall_fmap. }
  rewrite (series_sum_all_missing (to_numeric revenue)) by auto.
  rewrite (series_sum_all_missing (series_mul _ _)); [done|].
  apply series_mul_all_missing. destruct Hqp; auto.
Qed.

Lemma aggregation_of_text_columns_witness :
  agg_status_of (agg_diff (to_numeric [Str "two"; Str "three"])
                          (to_numeric [int 5; int 5])
                          (to_numeric [Str "ten"; Str "a lot"]))
  = agg_status_of (num_sub num_zero num_zero)
  ∧ agg_status_of (num_sub (num_zero (num:=Qc)) num_zero) = "PASS".
Proof.
  split; [|reflexivity].
  apply (aggregation_of_text_columns [Str "two"; Str "three"] [int 5; int 5]
           [Str "ten"; Str "a lot"]).
  - repeat constructor.
  - left. repeat constructor.
Defined.

(** ** The blank test and the invariants of the findings *)


(** X16. Whenever the checks run to the end, the findings are within their
    domains: each duplicate status is PASS or WARNING and is PASS exactly
    for count 0, the aggregation status is PASS or FAIL, the join risk is
    bound exactly when the ratio is not [None], which is exactly when the
    key column has a distinct value, and is then LOW, MEDIUM or HIGH; the
    counts never exceed the number of rows, and the two column lists name
    columns of the frame, in their order. *)
Theorem findings_stay_within_their_domains {num} `{!Numeric num} (df : DataFrame num)
    (primary_key quantity_col price_col revenue_col : string) (v : variables) :
  checks df primary_key quantity_col price_col revenue_col = inr v →
  (v_dup_status v = "PASS" ∧ v_duplicate_count v = 0
   ∨ v_dup_status v = "WARNING" ∧ v_duplicate_count v ≠ 0)
  ∧ (v_pk_status v = "PASS" ∧ v_pk_duplicate_count v = 0
     ∨ v_pk_status v = "WARNING" ∧ v_pk_duplicate_count v ≠ 0)
  ∧ (v_agg_status v = "PASS" ∨ v_agg_status v = "FAIL")
  ∧ (v_unique_keys v = 0
     ∧ v_duplication_ratio v = None ∧ v_join_risk_status v = None
     ∨ 0 < v_unique_keys v
       ∧ (∃ ratio, v_duplication_ratio v = Some ratio)
       ∧ (v_join_risk_status v = Some "LOW"
          ∨ v_join_risk_status v = Some "MEDIUM"
          ∨ v_join_risk_status v = Some "HIGH"))
  ∧ v_duplicate_count v ≤ v_total_rows v
  ∧ v_pk_duplicate_count v ≤ v_total_rows v
  ∧ v_unique_keys v ≤ v_total_rows v
  ∧ v_null_columns v `sublist_of` columns df
  ∧ v_negative_columns v `sublist_of` columns df.
Proof.
  intros Hv.
  destruct (checks_inr_inv _ _ _ _ _ _ Hv)
    as (key & qty & price & revenue & Hkey & Hqty & Hprice & Hrevenue).
  rewrite (checks_inr _ _ _ _ _ _ _ _ _ Hkey Hqty Hprice Hrevenue) in Hv.
  injection Hv as <-.
  cbn [v_total_rows v_duplicate_count v_dup_status v_pk_duplicate_count v_pk_status
       v_unique_keys v_duplication_ratio v_join_risk_status v_null_columns
       v_negative_columns v_agg_status].
  pose proof (sum_duplicated (rows df)) as Hrows.
  pose proof (sum_duplicated key) as Hkeys.
  pose proof (nunique_le key) as Hunique.
  rewrite (getitem_length _ _ _ Hkey) in Hkeys, Hunique.
  unfold duplicate_count, pk_duplicate_count, dup_status.
  split_and!.
  - destruct (Nat.eqb_spec (sum_bool (duplicated (rows df))) 0); [by left|by right].
  - destruct (Nat.eqb_spec (sum_bool (duplicated key)) 0); [by left|by right].
  - unfold agg_status_of. case_match; [by left|by right].
  - destruct (Nat.ltb_spec 0 (nunique key)) as [Hpos|Hzero]; cbn.
    + right. split_and!; [done|eauto|]. unfold join_risk. repeat case_match; auto.
    + left. split_and!; [lia|done..].
  - lia.
  - lia.
  - lia.
  - apply null_columns_sublist.
  - apply negative_columns_sublist.
Qed.

Lemma findings_stay_within_their_domains_witness :
  v_pk_status (mkVariables 3 0 "PASS" 2 "WARNING" 1
                 (Some (Py.mkfloat 6755399441055744 (-51))) (Some "HIGH")
                 [] [] "PASS") = "WARNING"
  ∧ 1 ≤ 3
  ∧ [] `sublist_of` columns sales_as_text.
Proof.
  destruct (findings_stay_within_their_domains
              sales_as_text "price" "quantity" "price" "revenue"
              (mkVariables 3 0 "PASS" 2 "WARNING" 1
                 (Some (Py.mkfloat 6755399441055744 (-51))) (Some "HIGH")
                 [] [] "PASS"))
    as (_ & [[Hpass Hzero]|[Hwarning _]] & _ & _ & _ & _ & Hunique & Hnulls & _).
  - vm_compute. reflexivity.
  - discriminate Hzero.
  - split; [exact Hwarning|]. split; [exact Hunique|exact Hnulls].
Defined.
